(** * Session record access layer (package postgres, dao.go)

    A shallow embedding of the PostgreSQL session DAO: the record pool,
    the statement templates built by [NewDao], and the seven access
    operations, written over an abstract query-executor facade.  A concrete
    in-memory table engine interprets the seven statement shapes so that
    the effect of the operations on the rows of the table can be stated. *)

From Stdlib Require Import ZArith List String Ascii Bool Lia.
From Stdlib Require Import Strings.Byte.
Import ListNotations.
Open Scope Z_scope.
Open Scope string_scope.

(** ** Machine integers and durations *)

Module Int64.

Definition modulus : Z := 2 ^ 64.
Definition min_signed : Z := - 2 ^ 63.
Definition max_signed : Z := 2 ^ 63 - 1.

Definition in_range (z : Z) : Prop := min_signed <= z <= max_signed.

(** Two's-complement wrap-around of a mathematical integer to [int64]. *)
Definition wrap (z : Z) : Z := (z - min_signed) mod modulus + min_signed.

(** Go's [*] on int64 wraps; Go's [/] truncates toward zero. *)
Definition mul (a b : Z) : Z := wrap (a * b).
Definition div (a b : Z) : Z := wrap (Z.quot a b).

End Int64.

(** [time.Duration] is an int64 count of nanoseconds. *)
Definition Duration := Z.
Definition Second : Duration := 1000000000.

(** ** Errors and statement parameters *)

(** [sql.ErrNoRows] is the distinguished sentinel; every other error of the
    driver or of the engine is an [ErrOther] carrying its message. *)
Inductive error : Type :=
| ErrNoRows
| ErrOther (msg : string).

Definition error_eqb (a b : error) : bool :=
  match a, b with
  | ErrNoRows, ErrNoRows => true
  | ErrOther x, ErrOther y => String.eqb x y
  | _, _ => false
  end.

(** A value bound to a [$n] placeholder, or held by a result column. *)
Inductive Param : Type :=
| PStr (s : string)
| PInt (z : Z).

(** [gotils.B2S]: the bytes of a slice viewed as a string. *)
Definition B2S (b : list byte) : string := string_of_list_byte b.

(** ** The record container and its pool *)

Record DBRow : Type := mkDBRow {
  sessionID : string;
  contents : string;
  lastActive : Z;
  expiration : Duration
}.

(** [new(DBRow)]: the zero value. *)
Definition newDBRow : DBRow := mkDBRow "" "" 0 0.

(** [func (row *DBRow) Reset()] *)
Definition Reset (row : DBRow) : DBRow :=
  {| sessionID := "";
     contents := "";
     lastActive := 0;
     expiration := expiration row |}.

(** ** A single result row of [QueryRow] *)

(** The handle returned by a single-row query: either the error it will
    report on [Scan] (among them [ErrNoRows]) or the columns of its row. *)
Inductive RowHandle : Type :=
| RowErr (e : error)
| RowCols (cols : list Param).

(** ** The world the operations run in *)

(** The pool of reusable records, the state reached through the
    connection, and the clock: [clock n] is the n-th reading of
    [time.Now().Unix()] and [ticks] counts the readings taken so far. *)
Record World (St : Type) : Type := mkWorld {
  dbRowPool : list DBRow;
  backend : St;
  clock : nat -> Z;
  ticks : nat
}.
Arguments mkWorld {St}.
Arguments dbRowPool {St}.
Arguments backend {St}.
Arguments clock {St}.
Arguments ticks {St}.

Definition M (St A : Type) : Type := World St -> A * World St.

Definition ret {St A} (a : A) : M St A := fun w => (a, w).
Definition bind {St A B} (m : M St A) (k : A -> M St B) : M St B :=
  fun w => let (a, w') := m w in k a w'.

Declare Scope dao_scope.
Delimit Scope dao_scope with dao.
Notation "x <- m ;; k" := (bind m (fun x => k))
  (at level 61, m at next level, right associativity) : dao_scope.
Open Scope dao_scope.

(** ** The query-executor facade *)

(** [Exec] runs a parameterised statement and reports the affected-row
    count; [QueryRow] runs a single-row query and reports either a failure
    or a row handle.  [sqlOpen] is [sql.Open]. *)
Class Facade (St Conn : Type) : Type := {
  sqlOpen : string -> string -> option Conn * option error;
  Exec : string -> list Param -> St -> (Z * option error) * St;
  QueryRow : string -> list Param -> St -> (error + RowHandle) * St
}.

Definition liftB {St A} (f : St -> A * St) : M St A :=
  fun w =>
    let (a, s') := f (backend w) in
    (a, mkWorld (dbRowPool w) s' (clock w) (ticks w)).

(** [time.Now().Unix()] *)
Definition timeNowUnix {St} : M St Z :=
  fun w => (clock w (ticks w),
            mkWorld (dbRowPool w) (backend w) (clock w) (S (ticks w))).

(** [sync.Pool.Get]: a pooled record when there is one (most recently put
    first), a fresh one from [New] otherwise. *)
Definition acquireDBRow {St} : M St DBRow :=
  fun w =>
    match dbRowPool w with
    | row :: rest => (row, mkWorld rest (backend w) (clock w) (ticks w))
    | [] => (newDBRow, w)
    end.

(** [releaseDBRow]: reset, then put. *)
Definition releaseDBRow {St} (row : DBRow) : M St unit :=
  fun w => (tt, mkWorld (Reset row :: dbRowPool w) (backend w) (clock w) (ticks w)).

(** ** Statement templates *)

(** [fmt.Sprintf] restricted to the verbs the templates use: [%s] takes
    the next argument, [%%] is a literal percent sign. *)
Fixpoint Sprintf (format : string) (args : list string) : string :=
  match format with
  | EmptyString => EmptyString
  | String "%"%char (String "s"%char rest) =>
      match args with
      | a :: args' => a ++ Sprintf rest args'
      | [] => "%!s(MISSING)" ++ Sprintf rest []
      end
  | String "%"%char (String "%"%char rest) => String "%"%char (Sprintf rest args)
  | String c rest => String c (Sprintf rest args)
  end.

Record Dao (Conn : Type) : Type := mkDao {
  tableName : string;
  Driver : string;
  Dsn : string;
  Connection : option Conn;
  sqlGetSessionBySessionID : string;
  sqlCountSessions : string;
  sqlUpdateBySessionID : string;
  sqlDeleteBySessionID : string;
  sqlDeleteExpiredSessions : string;
  sqlInsert : string;
  sqlRegenerate : string
}.
Arguments mkDao {Conn}.
Arguments tableName {Conn}.
Arguments Driver {Conn}.
Arguments Dsn {Conn}.
Arguments Connection {Conn}.
Arguments sqlGetSessionBySessionID {Conn}.
Arguments sqlCountSessions {Conn}.
Arguments sqlUpdateBySessionID {Conn}.
Arguments sqlDeleteBySessionID {Conn}.
Arguments sqlDeleteExpiredSessions {Conn}.
Arguments sqlInsert {Conn}.
Arguments sqlRegenerate {Conn}.

Module Template.
Definition getSessionBySessionID : string :=
  "SELECT session_id,contents,last_active,expiration FROM %s WHERE session_id=$1".
Definition countSessions : string :=
  "SELECT count(*) as total FROM %s".
Definition updateBySessionID : string :=
  "UPDATE %s SET contents=$1,last_active=$2,expiration=$3 WHERE session_id=$4".
Definition deleteBySessionID : string :=
  "DELETE FROM %s WHERE session_id=$1".
Definition deleteExpiredSessions : string :=
  "DELETE FROM %s WHERE last_active+expiration<=$1 AND expiration<>0".
Definition insert : string :=
  "INSERT INTO %s (session_id, contents, last_active, expiration) VALUES ($1,$2,$3,$4)".
Definition regenerate : string :=
  "UPDATE %s SET session_id=$1,last_active=$2,expiration=$3 WHERE session_id=$4".
End Template.

Section DaoOps.

Context {St Conn : Type} `{F : Facade St Conn}.

(** [NewDao]: the pointer result is [Some] of the object, [nil] would be
    [None]; the error of [sql.Open] is returned next to it. *)
Definition NewDao (driver dsn tblName : string) : option (Dao Conn) * option error :=
  let (connection, err) := sqlOpen driver dsn in
  (Some {| tableName := tblName;
           Driver := driver;
           Dsn := dsn;
           Connection := connection;
           sqlGetSessionBySessionID := Sprintf Template.getSessionBySessionID [tblName];
           sqlCountSessions := Sprintf Template.countSessions [tblName];
           sqlUpdateBySessionID := Sprintf Template.updateBySessionID [tblName];
           sqlDeleteBySessionID := Sprintf Template.deleteBySessionID [tblName];
           sqlDeleteExpiredSessions := Sprintf Template.deleteExpiredSessions [tblName];
           sqlInsert := Sprintf Template.insert [tblName];
           sqlRegenerate := Sprintf Template.regenerate [tblName] |},
   err).

(** [row.Scan(&data.sessionID, &data.contents, &data.lastActive,
    &data.expiration)]: a handle holding an error reports it and writes
    nothing; a row of the four expected columns fills the four slots. *)
Definition scanDBRow (h : RowHandle) (data : DBRow) : DBRow * option error :=
  match h with
  | RowErr e => (data, Some e)
  | RowCols [PStr sid; PStr c; PInt la; PInt ex] => (mkDBRow sid c la ex, None)
  | RowCols _ => (data, Some (ErrOther "sql: Scan error"))
  end.

(** [row.Scan(&total)] *)
Definition scanInt (h : RowHandle) (total : Z) : Z * option error :=
  match h with
  | RowErr e => (total, Some e)
  | RowCols [PInt n] => (n, None)
  | RowCols _ => (total, Some (ErrOther "sql: Scan error"))
  end.

Definition getSessionBySessionID (db : Dao Conn) (sessID : list byte)
  : M St (option DBRow * option error) :=
  data <- acquireDBRow ;;
  q <- liftB (QueryRow (sqlGetSessionBySessionID db) [PStr (B2S sessID)]) ;;
  match q with
  | inl err => ret (None, Some err)
  | inr row =>
      let (data', err) := scanDBRow row data in
      match err with
      | Some e =>
          if negb (error_eqb e ErrNoRows) then ret (None, Some e)
          else ret (Some (mkDBRow (sessionID data') (contents data') (lastActive data')
                                  (Int64.mul (expiration data') Second)), None)
      | None =>
          ret (Some (mkDBRow (sessionID data') (contents data') (lastActive data')
                             (Int64.mul (expiration data') Second)), None)
      end
  end.

Definition countSessions (db : Dao Conn) : M St Z :=
  q <- liftB (QueryRow (sqlCountSessions db) []) ;;
  match q with
  | inl _ => ret 0
  | inr row =>
      let (total, err) := scanInt row 0 in
      match err with
      | Some _ => ret 0
      | None => ret total
      end
  end.

Definition updateBySessionID (db : Dao Conn) (sessID conts : list byte)
    (lastActiveTime : Z) (expir : Duration) : M St (Z * option error) :=
  liftB (Exec (sqlUpdateBySessionID db)
           [PStr (B2S conts); PInt lastActiveTime;
            PInt (Int64.div expir Second); PStr (B2S sessID)]).

Definition deleteBySessionID (db : Dao Conn) (sessID : list byte)
  : M St (Z * option error) :=
  liftB (Exec (sqlDeleteBySessionID db) [PStr (B2S sessID)]).

Definition deleteExpiredSessions (db : Dao Conn) : M St (Z * option error) :=
  now <- timeNowUnix ;;
  liftB (Exec (sqlDeleteExpiredSessions db) [PInt now]).

Definition insert (db : Dao Conn) (sessID conts : list byte)
    (lastActiveTime : Z) (expir : Duration) : M St (Z * option error) :=
  liftB (Exec (sqlInsert db)
           [PStr (B2S sessID); PStr (B2S conts); PInt lastActiveTime;
            PInt (Int64.div expir Second)]).

Definition regenerate (db : Dao Conn) (oldID newID : list byte)
    (lastActiveTime : Z) (expir : Duration) : M St (Z * option error) :=
  liftB (Exec (sqlRegenerate db)
           [PStr (B2S newID); PInt lastActiveTime;
            PInt (Int64.div expir Second); PStr (B2S oldID)]).

End DaoOps.

(** ** The table engine behind the facade *)

Module Engine.

(** A persisted row: [expiration] is a count of whole seconds here. *)
Record Row : Type := mkRow {
  session_id : string;
  r_contents : string;
  last_active : Z;
  r_expiration : Z
}.

(** Modelled from the spec: the backing table of the excluded storage
    engine (sections 3 and 6): the rows of one table, in insertion order,
    with [session_id] as unique key.  [fault] is the failure the store
    reports on every request while it is unreachable. *)
Record Store : Type := mkStore {
  table : string;
  rows : list Row;
  fault : option error
}.

Inductive Stmt : Type :=
| SGetSessionBySessionID
| SCountSessions
| SUpdateBySessionID
| SDeleteBySessionID
| SDeleteExpiredSessions
| SInsert
| SRegenerate.

(** Modelled from the spec: the engine accepts exactly the seven statement
    shapes of section 6, written against its own table, and no others. *)
Definition parse (tbl q : string) : option Stmt :=
  if String.eqb q (Sprintf Template.getSessionBySessionID [tbl]) then Some SGetSessionBySessionID
  else if String.eqb q (Sprintf Template.countSessions [tbl]) then Some SCountSessions
  else if String.eqb q (Sprintf Template.updateBySessionID [tbl]) then Some SUpdateBySessionID
  else if String.eqb q (Sprintf Template.deleteBySessionID [tbl]) then Some SDeleteBySessionID
  else if String.eqb q (Sprintf Template.deleteExpiredSessions [tbl]) then Some SDeleteExpiredSessions
  else if String.eqb q (Sprintf Template.insert [tbl]) then Some SInsert
  else if String.eqb q (Sprintf Template.regenerate [tbl]) then Some SRegenerate
  else None.

Definition keyed (id : string) (r : Row) : bool := String.eqb (session_id r) id.

(** [WHERE last_active+expiration<=$1 AND expiration<>0] *)
Definition expired (now : Z) (r : Row) : bool :=
  ((last_active r + r_expiration r <=? now) && negb (r_expiration r =? 0))%Z.

(** [SET contents=$1,last_active=$2,expiration=$3 WHERE session_id=$4] *)
Definition setFields (c : string) (la ex : Z) (id : string) (r : Row) : Row :=
  if keyed id r then mkRow (session_id r) c la ex else r.

(** [SET session_id=$1,last_active=$2,expiration=$3 WHERE session_id=$4] *)
Definition setKey (newid : string) (la ex : Z) (oldid : string) (r : Row) : Row :=
  if keyed oldid r then mkRow newid (r_contents r) la ex else r.

Definition count (f : Row -> bool) (rs : list Row) : Z :=
  Z.of_nat (List.length (filter f rs)).

(** The uniqueness constraint on [session_id]. *)
Fixpoint unique (rs : list Row) : bool :=
  match rs with
  | [] => true
  | r :: rest => negb (existsb (keyed (session_id r)) rest) && unique rest
  end.

Definition syntaxError : error := ErrOther "pq: syntax error".
Definition uniqueViolation : error :=
  ErrOther "pq: duplicate key value violates unique constraint".

Definition withRows (st : Store) (rs : list Row) : Store :=
  mkStore (table st) rs (fault st).

(** Modelled from the spec: [execute(stmt, params...)] of the facade
    (sections 4.2 and 6) over the table.  A statement that would break the
    uniqueness constraint fails and changes nothing. *)
Definition exec (q : string) (params : list Param) (st : Store)
  : (Z * option error) * Store :=
  match fault st with
  | Some e => ((0, Some e), st)
  | None =>
      match parse (table st) q, params with
      | Some SUpdateBySessionID, [PStr c; PInt la; PInt ex; PStr id] =>
          ((count (keyed id) (rows st), None),
           withRows st (map (setFields c la ex id) (rows st)))
      | Some SDeleteBySessionID, [PStr id] =>
          ((count (keyed id) (rows st), None),
           withRows st (filter (fun r => negb (keyed id r)) (rows st)))
      | Some SDeleteExpiredSessions, [PInt now] =>
          ((count (expired now) (rows st), None),
           withRows st (filter (fun r => negb (expired now r)) (rows st)))
      | Some SInsert, [PStr id; PStr c; PInt la; PInt ex] =>
          let rs' := (rows st ++ [mkRow id c la ex])%list in
          if unique rs' then ((1, None), withRows st rs')
          else ((0, Some uniqueViolation), st)
      | Some SRegenerate, [PStr newid; PInt la; PInt ex; PStr oldid] =>
          let rs' := map (setKey newid la ex oldid) (rows st) in
          if unique rs' then ((count (keyed oldid) (rows st), None), withRows st rs')
          else ((0, Some uniqueViolation), st)
      | _, _ => ((0, Some syntaxError), st)
      end
  end.

(** Modelled from the spec: [queryRow(stmt, params...)] of the facade: the
    handle of the first matching row, or a handle that reports the
    distinguished no-rows condition when it is scanned. *)
Definition queryRow (q : string) (params : list Param) (st : Store)
  : (error + RowHandle) * Store :=
  match fault st with
  | Some e => (inl e, st)
  | None =>
      match parse (table st) q, params with
      | Some SGetSessionBySessionID, [PStr id] =>
          match find (keyed id) (rows st) with
          | Some r =>
              (inr (RowCols [PStr (session_id r); PStr (r_contents r);
                             PInt (last_active r); PInt (r_expiration r)]), st)
          | None => (inr (RowErr ErrNoRows), st)
          end
      | Some SCountSessions, [] =>
          (inr (RowCols [PInt (Z.of_nat (List.length (rows st)))]), st)
      | _, _ => (inl syntaxError, st)
      end
  end.

(** Modelled from the spec: connection establishment of the excluded
    collaborator; the engine knows the one driver it is reached through. *)
Definition open (driver dsn : string) : option unit * option error :=
  if String.eqb driver "postgres" then (Some tt, None)
  else (None, Some (ErrOther "sql: unknown driver")).

#[global] Instance facade : Facade Store unit := {
  sqlOpen := open;
  Exec := exec;
  QueryRow := queryRow
}.

End Engine.

(** ** A running table, used by the concrete runs below *)

Module Scenario.

Definition bytes (s : string) : list byte := list_byte_of_string s.

Definition db : Dao unit :=
  match NewDao (F := Engine.facade) "postgres" "host=localhost" "session" with
  | (Some d, _) => d
  | (None, _) => mkDao "" "" "" None "" "" "" "" "" "" ""
  end.

Definition store (rs : list Engine.Row) : Engine.Store :=
  Engine.mkStore "session" rs None.

Definition unreachable (rs : list Engine.Row) : Engine.Store :=
  Engine.mkStore "session" rs (Some (ErrOther "dial tcp: connection refused")).

Definition world (p : list DBRow) (s : Engine.Store) : World Engine.Store :=
  mkWorld p s (fun n => 2000 + Z.of_nat n) 0.

Definition s1 : Engine.Row := Engine.mkRow "s1" "a" 1000 30.

(** A row that never expires, last active at the epoch. *)
Definition keep : Engine.Row := Engine.mkRow "keep" "k" 0 0.

(** A reachable table of two rows and an empty pool. *)
Definition twoRows : World Engine.Store := world [] (store [keep; s1]).

(** The table holds [s1]; the caller fetches it and releases the record. *)
Definition afterRelease : World Engine.Store :=
  let (res, w1) := getSessionBySessionID db (bytes "s1") (world [] (store [s1])) in
  match fst res with
  | Some row => snd (releaseDBRow row w1)
  | None => w1
  end.

End Scenario.

(** ** The pool discipline, as predicates on a call *)

(** The pool a call of [getSessionBySessionID] would leave if it released
    the record it acquired before returning: the reset record on top of
    what the acquisition left. *)
Definition poolIfReleased {St : Type} (w : World St) : list DBRow :=
  let (data, w') := acquireDBRow w in
  dbRowPool (snd (releaseDBRow data w')).

Definition releasedOnReturn {St Conn : Type} `{Facade St Conn}
    (db : Dao Conn) (sessID : list byte) (w : World St) : Prop :=
  dbRowPool (snd (getSessionBySessionID db sessID w)) = poolIfReleased w.

(** A record in its zero state. *)
Definition zeroed (row : DBRow) : Prop :=
  sessionID row = "" /\ contents row = "" /\ lastActive row = 0 /\ expiration row = 0.

(** A record as [releaseDBRow] leaves it: identifier, contents and
    lastActive cleared. *)
Definition cleared (row : DBRow) : Prop :=
  sessionID row = "" /\ contents row = "" /\ lastActive row = 0.

(** Every record waiting in the pool is cleared. *)
Definition poolCleared {St : Type} (w : World St) : Prop :=
  Forall cleared (dbRowPool w).

(** * Properties *)

(** ** Arithmetic of the duration conversions *)

Lemma wrap_in_range (z : Z) : Int64.in_range z -> Int64.wrap z = z.
Proof.
  unfold Int64.in_range, Int64.wrap, Int64.min_signed, Int64.max_signed, Int64.modulus.
  intros H. rewrite Z.mod_small; lia.
Qed.

Lemma quot_Second_in_range (e : Z) :
  Int64.in_range e -> Int64.in_range (Z.quot e Second).
Proof.
  unfold Int64.in_range, Int64.min_signed, Int64.max_signed, Second. intros H.
  assert (Hq := Z.quot_rem' e 1000000000).
  assert (Hr : Z.abs (Z.rem e 1000000000) < 1000000000)
    by (pose proof (Z.rem_bound_abs e 1000000000); lia).
  split; [apply Z.quot_le_lower_bound | apply Z.quot_le_upper_bound]; lia.
Qed.

Lemma div_Second (e : Z) :
  Int64.in_range e -> Int64.div e Second = Z.quot e Second.
Proof.
  intros H. unfold Int64.div. apply wrap_in_range, quot_Second_in_range, H.
Qed.

Lemma whole_seconds_store_load (s : Z) :
  0 <= s -> s * Second <= Int64.max_signed ->
  Int64.mul (Int64.div (s * Second) Second) Second = s * Second.
Proof.
  intros H0 Hmax.
  assert (Hr : Int64.in_range (s * Second))
    by (unfold Int64.in_range, Int64.min_signed, Second in *; lia).
  rewrite (div_Second _ Hr).
  rewrite Z.quot_mul by (unfold Second; lia).
  unfold Int64.mul. apply wrap_in_range, Hr.
Qed.

(** ** Strings *)

Lemma append_nil_r (s : string) : s ++ "" = s.
Proof. induction s as [| c s IH]; simpl; [reflexivity | now rewrite IH]. Qed.

Lemma eqb_append_prefix (t a b : string) :
  String.eqb (t ++ a) (t ++ b) = String.eqb a b.
Proof.
  induction t as [| c t IH]; simpl; [reflexivity |].
  now rewrite Ascii.eqb_refl.
Qed.

(** ** Construction *)

Section Construction.

Context {St Conn : Type} `{F : Facade St Conn}.

(** C10: [NewDao] always returns a non-nil access object whose seven
    statement templates are built with the table name substituted, and it
    returns the result of opening the connection, error included, next to
    that fully initialised object. *)
Theorem NewDao_builds_all_templates (driver dsn tblName : string) :
  exists db : Dao Conn,
    NewDao driver dsn tblName = (Some db, snd (sqlOpen driver dsn)) /\
    tableName db = tblName /\ Driver db = driver /\ Dsn db = dsn /\
    Connection db = fst (sqlOpen driver dsn) /\
    sqlGetSessionBySessionID db =
      "SELECT session_id,contents,last_active,expiration FROM " ++ tblName
        ++ " WHERE session_id=$1" /\
    sqlCountSessions db = "SELECT count(*) as total FROM " ++ tblName /\
    sqlUpdateBySessionID db =
      "UPDATE " ++ tblName
        ++ " SET contents=$1,last_active=$2,expiration=$3 WHERE session_id=$4" /\
    sqlDeleteBySessionID db = "DELETE FROM " ++ tblName ++ " WHERE session_id=$1" /\
    sqlDeleteExpiredSessions db =
      "DELETE FROM " ++ tblName ++ " WHERE last_active+expiration<=$1 AND expiration<>0" /\
    sqlInsert db =
      "INSERT INTO " ++ tblName
        ++ " (session_id, contents, last_active, expiration) VALUES ($1,$2,$3,$4)" /\
    sqlRegenerate db =
      "UPDATE " ++ tblName
        ++ " SET session_id=$1,last_active=$2,expiration=$3 WHERE session_id=$4".
Proof.
  unfold NewDao. destruct (sqlOpen driver dsn) as [connection err].
  eexists. split; [reflexivity |].
  cbn [tableName Driver Dsn Connection fst snd sqlGetSessionBySessionID
       sqlCountSessions sqlUpdateBySessionID sqlDeleteBySessionID
       sqlDeleteExpiredSessions sqlInsert sqlRegenerate].
  repeat split; try reflexivity.
  (* the count template ends with the table name *)
  unfold Template.countSessions. cbn. now rewrite append_nil_r.
Qed.

End Construction.

(** ** The record pool *)

Lemma Reset_clears_three_fields (row : DBRow) :
  sessionID (Reset row) = "" /\ contents (Reset row) = "" /\ lastActive (Reset row) = 0.
Proof. repeat split. Qed.

Lemma Reset_keeps_expiration (row : DBRow) : expiration (Reset row) = expiration row.
Proof. reflexivity. Qed.

Lemma acquire_after_release {St : Type} (row : DBRow) (w : World St) :
  fst (acquireDBRow (snd (releaseDBRow row w))) = mkDBRow "" "" 0 (expiration row).
Proof. reflexivity. Qed.

(** C5: a record holding session "s1" with a 30 s expiration is released
    and the pool is asked for a record again: the record handed out has an
    empty identifier, empty contents and a zero lastActive, but still
    carries the 30 s expiration of its previous occupant, so it is not in
    the zero state. *)
Theorem release_then_acquire_exposes_expiration :
  let row := mkDBRow "s1" "a" 1000 (30 * Second) in
  let w := Scenario.world [] (Scenario.store []) in
  let got := fst (acquireDBRow (snd (releaseDBRow row w))) in
  got = mkDBRow "" "" 0 30000000000 /\ ~ zeroed got.
Proof.
  cbv zeta. split; [reflexivity |].
  unfold zeroed. cbn. intros (_ & _ & _ & H). discriminate H.
Qed.

(** ** Operations over an arbitrary facade *)

Section Access.

Context {St Conn : Type} `{F : Facade St Conn}.

Variable db : Dao Conn.

Ltac run_query w :=
  unfold getSessionBySessionID, countSessions, bind, liftB, ret; cbn beta;
  destruct (acquireDBRow w) as [data wa] eqn:Hacq.

(** *** Fetch *)

Lemma acquire_backend (w : World St) :
  backend (snd (acquireDBRow w)) = backend w.
Proof. unfold acquireDBRow. destruct (dbRowPool w); reflexivity. Qed.

Lemma acquire_pool (w : World St) :
  dbRowPool (snd (acquireDBRow w)) = tl (dbRowPool w).
Proof.
  unfold acquireDBRow. destruct (dbRowPool w) as [| row rest] eqn:E; cbn; [| reflexivity].
  exact E.
Qed.

(** A failing query is returned as it is, with no record. *)
Lemma fetch_query_failure (sessID : list byte) (w : World St) (e : error) :
  fst (QueryRow (sqlGetSessionBySessionID db) [PStr (B2S sessID)] (backend w)) = inl e ->
  fst (getSessionBySessionID db sessID w) = (None, Some e).
Proof.
  intros Hq. run_query w.
  assert (Hb : backend wa = backend w)
    by (rewrite <- (acquire_backend w), Hacq; reflexivity).
  rewrite Hb.
  destruct (QueryRow _ _ (backend w)) as [q s']. cbn in Hq. subst q. reflexivity.
Qed.

(** A scan failure other than the no-rows sentinel is returned as it is,
    with no record. *)
Lemma fetch_scan_failure (sessID : list byte) (w : World St) (h : RowHandle) (e : error) :
  fst (QueryRow (sqlGetSessionBySessionID db) [PStr (B2S sessID)] (backend w)) = inr h ->
  snd (scanDBRow h (fst (acquireDBRow w))) = Some e ->
  e <> ErrNoRows ->
  fst (getSessionBySessionID db sessID w) = (None, Some e).
Proof.
  intros Hq Hs Hne. run_query w.
  assert (Hb : backend wa = backend w)
    by (rewrite <- (acquire_backend w), Hacq; reflexivity).
  rewrite Hb. cbn in Hs.
  destruct (QueryRow _ _ (backend w)) as [q s']. cbn in Hq. subst q.
  destruct (scanDBRow h data) as [data' err]. cbn in Hs. subst err.
  destruct e as [| msg]; [congruence | reflexivity].
Qed.

(** On the no-rows sentinel the acquired record is returned, with its
    expiration multiplied by one second, and no error. *)
Lemma fetch_no_rows (sessID : list byte) (w : World St) :
  fst (QueryRow (sqlGetSessionBySessionID db) [PStr (B2S sessID)] (backend w))
    = inr (RowErr ErrNoRows) ->
  let data := fst (acquireDBRow w) in
  fst (getSessionBySessionID db sessID w)
    = (Some (mkDBRow (sessionID data) (contents data) (lastActive data)
                     (Int64.mul (expiration data) Second)), None).
Proof.
  intros Hq. run_query w.
  assert (Hb : backend wa = backend w)
    by (rewrite <- (acquire_backend w), Hacq; reflexivity).
  rewrite Hb.
  destruct (QueryRow _ _ (backend w)) as [q s']. cbn in Hq. subst q. reflexivity.
Qed.

(** With nothing in the pool the record is fresh, and the no-rows result is
    the zero record. *)
Lemma fetch_no_rows_fresh (sessID : list byte) (w : World St) :
  dbRowPool w = [] ->
  fst (QueryRow (sqlGetSessionBySessionID db) [PStr (B2S sessID)] (backend w))
    = inr (RowErr ErrNoRows) ->
  fst (getSessionBySessionID db sessID w) = (Some newDBRow, None).
Proof.
  intros Hp Hq. rewrite (fetch_no_rows sessID w Hq).
  unfold acquireDBRow. rewrite Hp. reflexivity.
Qed.

(** C6 (as amended): [getSessionBySessionID] never resets the record it
    acquires and never puts it back into the pool, on any return path, the
    error returns included: after the call the pool is what the
    acquisition left.  On the paths that return a record (row found, or no
    rows) the record returned is the acquired record as the scan left it,
    with its expiration multiplied by one second; on no rows that is the
    acquired record itself.  The record is reset only when the caller later
    passes it to [releaseDBRow], which resets it and then puts it on top of
    the pool. *)
Theorem fetch_hands_record_to_caller
    (sessID : list byte) (w w' : World St) (res : option DBRow * option error) :
  getSessionBySessionID db sessID w = (res, w') ->
  let data := fst (acquireDBRow w) in
  let q := fst (QueryRow (sqlGetSessionBySessionID db) [PStr (B2S sessID)] (backend w)) in
  let loaded (d : DBRow) :=
    mkDBRow (sessionID d) (contents d) (lastActive d) (Int64.mul (expiration d) Second) in
  dbRowPool w' = dbRowPool (snd (acquireDBRow w)) /\
  ~ releasedOnReturn db sessID w /\
  (forall e, q = inl e -> res = (None, Some e)) /\
  (q = inr (RowErr ErrNoRows) -> res = (Some (loaded data), None)) /\
  (forall row err,
      res = (Some row, err) ->
      err = None /\
      (exists h, q = inr h /\ row = loaded (fst (scanDBRow h data))) /\
      dbRowPool (snd (releaseDBRow row w'))
      = Reset row :: dbRowPool (snd (acquireDBRow w)) /\
      fst (acquireDBRow (snd (releaseDBRow row w'))) = Reset row).
Proof.
  intros Hrun data q loaded.
  assert (Hall :
    dbRowPool w' = dbRowPool (snd (acquireDBRow w)) /\
    res = match q with
          | inl e => (None, Some e)
          | inr h =>
              match snd (scanDBRow h data) with
              | Some e => if negb (error_eqb e ErrNoRows) then (None, Some e)
                          else (Some (loaded (fst (scanDBRow h data))), None)
              | None => (Some (loaded (fst (scanDBRow h data))), None)
              end
          end).
  { subst data q loaded. revert Hrun. run_query w. cbn [fst snd].
    assert (Hb : backend wa = backend w)
      by (rewrite <- (acquire_backend w), Hacq; reflexivity).
    rewrite Hb.
    destruct (QueryRow _ _ (backend w)) as [qr s']. cbn [fst].
    destruct qr as [e | h].
    - intros H; inversion H; subst; split; reflexivity.
    - destruct (scanDBRow h data) as [data' serr]. cbn [fst snd].
      destruct serr as [e |];
        [destruct (negb (error_eqb e ErrNoRows)) |];
        intros H; inversion H; subst; split; reflexivity. }
  destruct Hall as [Hpool Hres].
  split; [exact Hpool |]. split; [| split; [| split]].
  - unfold releasedOnReturn, poolIfReleased. rewrite Hrun. cbn [snd].
    rewrite Hpool. destruct (acquireDBRow w) as [d wa]. cbn.
    intros Heq. apply (f_equal (@List.length DBRow)) in Heq. cbn in Heq. lia.
  - intros e He. rewrite He in Hres. exact Hres.
  - intros Hq. rewrite Hq in Hres. exact Hres.
  - intros row err Hrow. rewrite Hrow in Hres.
    assert (Hshape : err = None /\
                     exists h, q = inr h /\ row = loaded (fst (scanDBRow h data))).
    { destruct q as [e | h]; [discriminate |].
      destruct (snd (scanDBRow h data)) as [e |];
        [destruct (negb (error_eqb e ErrNoRows)); [discriminate |] |];
        injection Hres as -> ->; (split; [reflexivity |]);
        exists h; split; reflexivity. }
    destruct Hshape as [Herr Hh].
    split; [exact Herr |]. split; [exact Hh |].
    split; [cbn; now rewrite Hpool | reflexivity].
Qed.

(** *** Count *)

(** C8: [countSessions] has no error result.  It returns zero when the
    count query fails and when the scan of its row fails, whatever the
    failure, and the scanned count otherwise; a store that fails and a
    store that holds no session give the caller the same answer. *)
Theorem countSessions_swallows_errors (w : World St) :
  (forall e,
      fst (QueryRow (sqlCountSessions db) [] (backend w)) = inl e ->
      fst (countSessions db w) = 0) /\
  (forall h e,
      fst (QueryRow (sqlCountSessions db) [] (backend w)) = inr h ->
      snd (scanInt h 0) = Some e ->
      fst (countSessions db w) = 0) /\
  (forall h total,
      fst (QueryRow (sqlCountSessions db) [] (backend w)) = inr h ->
      scanInt h 0 = (total, None) ->
      fst (countSessions db w) = total) /\
  (forall e,
      fst (QueryRow (sqlCountSessions db) [] (backend w)) = inl e ->
      fst (countSessions db w)
        = fst (countSessions (F := Engine.facade) Scenario.db
                 (Scenario.world [] (Scenario.store [])))).
Proof.
  unfold countSessions at 1 2 3 4. unfold bind, liftB, ret.
  destruct (QueryRow _ _ (backend w)) as [q s']. cbn [fst].
  repeat split.
  - intros e ->. reflexivity.
  - intros h e -> Hs. destruct (scanInt h 0) as [t err]. cbn in Hs. subst err. reflexivity.
  - intros h total -> Hs. rewrite Hs. reflexivity.
  - intros e ->. reflexivity.
Qed.

(** *** Binding of the expiration *)

(** C7: the expiration bound by [insert] and by [updateBySessionID] is the
    duration divided by one second with truncation toward zero: the bound
    count of seconds never exceeds the duration in magnitude and misses it
    by less than one second, so a sub-second component is dropped and never
    rounded up (1.9 s binds 1). *)
Theorem bound_expiration_truncates
    (sessID conts : list byte) (lastActiveTime : Z) (expir : Duration) :
  Int64.in_range expir ->
  exists q : Z,
    insert db sessID conts lastActiveTime expir
      = liftB (Exec (sqlInsert db)
                 [PStr (B2S sessID); PStr (B2S conts); PInt lastActiveTime; PInt q]) /\
    updateBySessionID db sessID conts lastActiveTime expir
      = liftB (Exec (sqlUpdateBySessionID db)
                 [PStr (B2S conts); PInt lastActiveTime; PInt q; PStr (B2S sessID)]) /\
    q = Z.quot expir Second /\
    Z.abs (q * Second) <= Z.abs expir < Z.abs (q * Second) + Second /\
    (0 <= expir -> q * Second <= expir < (q + 1) * Second) /\
    (expir = 1900000000 -> q = 1).
Proof.
  intros Hr. exists (Z.quot expir Second).
  unfold insert, updateBySessionID. rewrite (div_Second _ Hr).
  unfold Second.
  repeat split; try reflexivity;
    intros; Z.to_euclidean_division_equations; lia.
Qed.

End Access.

(** ** The table engine *)

Module EngineFacts.
Import Engine.

(** *** Statement recognition *)

Ltac parse_template :=
  intros; unfold parse, Template.getSessionBySessionID, Template.countSessions,
    Template.updateBySessionID, Template.deleteBySessionID,
    Template.deleteExpiredSessions, Template.insert, Template.regenerate;
  cbn; rewrite ?eqb_append_prefix; cbn; rewrite ?String.eqb_refl; reflexivity.

Lemma parse_getSessionBySessionID (tbl : string) :
  parse tbl (Sprintf Template.getSessionBySessionID [tbl]) = Some SGetSessionBySessionID.
Proof. parse_template. Qed.

Lemma parse_countSessions (tbl : string) :
  parse tbl (Sprintf Template.countSessions [tbl]) = Some SCountSessions.
Proof. parse_template. Qed.

Lemma parse_updateBySessionID (tbl : string) :
  parse tbl (Sprintf Template.updateBySessionID [tbl]) = Some SUpdateBySessionID.
Proof. parse_template. Qed.

Lemma parse_deleteBySessionID (tbl : string) :
  parse tbl (Sprintf Template.deleteBySessionID [tbl]) = Some SDeleteBySessionID.
Proof. parse_template. Qed.

Lemma parse_deleteExpiredSessions (tbl : string) :
  parse tbl (Sprintf Template.deleteExpiredSessions [tbl]) = Some SDeleteExpiredSessions.
Proof. parse_template. Qed.

Lemma parse_insert (tbl : string) :
  parse tbl (Sprintf Template.insert [tbl]) = Some SInsert.
Proof. parse_template. Qed.

Lemma parse_regenerate (tbl : string) :
  parse tbl (Sprintf Template.regenerate [tbl]) = Some SRegenerate.
Proof. parse_template. Qed.

End EngineFacts.

Module Table.
Import Engine EngineFacts.

(** *** The statements of a [Dao] built by [NewDao] *)

Lemma NewDao_statements {St Conn : Type} `{F : Facade St Conn}
    (driver dsn tbl : string) (db : Dao Conn) (oe : option error) :
  NewDao driver dsn tbl = (Some db, oe) ->
  sqlGetSessionBySessionID db = Sprintf Template.getSessionBySessionID [tbl] /\
  sqlCountSessions db = Sprintf Template.countSessions [tbl] /\
  sqlUpdateBySessionID db = Sprintf Template.updateBySessionID [tbl] /\
  sqlDeleteBySessionID db = Sprintf Template.deleteBySessionID [tbl] /\
  sqlDeleteExpiredSessions db = Sprintf Template.deleteExpiredSessions [tbl] /\
  sqlInsert db = Sprintf Template.insert [tbl] /\
  sqlRegenerate db = Sprintf Template.regenerate [tbl].
Proof.
  unfold NewDao. destruct (sqlOpen driver dsn) as [connection err].
  intros H. inversion H; subst. repeat split.
Qed.

(** *** One statement at a time *)

Lemma exec_fault (q : string) (ps : list Param) (st : Store) (e : error) :
  fault st = Some e -> exec q ps st = ((0, Some e), st).
Proof. intros H. unfold exec. now rewrite H. Qed.

Lemma exec_update (st : Store) (c : string) (la ex : Z) (id : string) :
  fault st = None ->
  exec (Sprintf Template.updateBySessionID [table st])
       [PStr c; PInt la; PInt ex; PStr id] st
  = ((count (keyed id) (rows st), None),
     withRows st (map (setFields c la ex id) (rows st))).
Proof. intros H. unfold exec. now rewrite H, parse_updateBySessionID. Qed.

Lemma exec_deleteExpired (st : Store) (now : Z) :
  fault st = None ->
  exec (Sprintf Template.deleteExpiredSessions [table st]) [PInt now] st
  = ((count (expired now) (rows st), None),
     withRows st (filter (fun r => negb (expired now r)) (rows st))).
Proof. intros H. unfold exec. now rewrite H, parse_deleteExpiredSessions. Qed.

Lemma exec_insert (st : Store) (id c : string) (la ex : Z) :
  fault st = None ->
  exec (Sprintf Template.insert [table st]) [PStr id; PStr c; PInt la; PInt ex] st
  = if unique (rows st ++ [mkRow id c la ex])%list
    then ((1, None), withRows st (rows st ++ [mkRow id c la ex])%list)
    else ((0, Some uniqueViolation), st).
Proof. intros H. unfold exec. now rewrite H, parse_insert. Qed.

Lemma exec_regenerate (st : Store) (newid : string) (la ex : Z) (oldid : string) :
  fault st = None ->
  exec (Sprintf Template.regenerate [table st])
       [PStr newid; PInt la; PInt ex; PStr oldid] st
  = if unique (map (setKey newid la ex oldid) (rows st))
    then ((count (keyed oldid) (rows st), None),
          withRows st (map (setKey newid la ex oldid) (rows st)))
    else ((0, Some uniqueViolation), st).
Proof. intros H. unfold exec. now rewrite H, parse_regenerate. Qed.

Lemma queryRow_get (st : Store) (id : string) :
  fault st = None ->
  queryRow (Sprintf Template.getSessionBySessionID [table st]) [PStr id] st
  = match find (keyed id) (rows st) with
    | Some r => (inr (RowCols [PStr (session_id r); PStr (r_contents r);
                               PInt (last_active r); PInt (r_expiration r)]), st)
    | None => (inr (RowErr ErrNoRows), st)
    end.
Proof. intros H. unfold queryRow. now rewrite H, parse_getSessionBySessionID. Qed.

(** *** Rows and keys *)

Lemma expired_spec (now : Z) (r : Row) :
  expired now r = true <->
  last_active r + r_expiration r <= now /\ r_expiration r <> 0.
Proof.
  unfold expired. rewrite andb_true_iff, negb_true_iff, Z.leb_le, Z.eqb_neq. tauto.
Qed.

Lemma keyed_spec (id : string) (r : Row) : keyed id r = true <-> session_id r = id.
Proof. unfold keyed. apply String.eqb_eq. Qed.

Lemma no_key_count (id : string) (rs : list Row) :
  (forall r, In r rs -> session_id r <> id) -> count (keyed id) rs = 0.
Proof.
  intros H. unfold count. induction rs as [| a rs IH]; [reflexivity |].
  cbn. destruct (keyed id a) eqn:E.
  - apply keyed_spec in E. exfalso. apply (H a); [now left | exact E].
  - apply IH. intros r Hr. apply H. now right.
Qed.

Lemma no_key_map (f : Row -> Row) (id : string) (rs : list Row) :
  (forall r, keyed id r = false -> f r = r) ->
  (forall r, In r rs -> session_id r <> id) -> map f rs = rs.
Proof.
  intros Hf H. induction rs as [| a rs IH]; [reflexivity |].
  cbn. rewrite IH by (intros r Hr; apply H; now right).
  rewrite Hf; [reflexivity |].
  destruct (keyed id a) eqn:E; [| reflexivity].
  apply keyed_spec in E. exfalso. apply (H a); [now left | exact E].
Qed.

Lemma unique_snoc_find (rs : list Row) (r : Row) :
  unique (rs ++ [r])%list = true ->
  find (keyed (session_id r)) (rs ++ [r])%list = Some r.
Proof.
  induction rs as [| a rs IH]; cbn.
  - intros _. unfold keyed. now rewrite String.eqb_refl.
  - rewrite andb_true_iff, negb_true_iff. intros [Hex Hu].
    assert (Ha : keyed (session_id r) a = false).
    { destruct (keyed (session_id r) a) eqn:E; [| reflexivity].
      apply keyed_spec in E.
      assert (Hin : existsb (keyed (session_id a)) (rs ++ [r])%list = true).
      { apply existsb_exists. exists r. split.
        - apply in_or_app. right. now left.
        - apply keyed_spec. now rewrite E. }
      congruence. }
    rewrite Ha. apply IH, Hu.
Qed.

(** *** The uniqueness constraint is an invariant of the table *)

Lemma existsb_keyed_ids (id : string) (a b : list Row) :
  map session_id a = map session_id b ->
  existsb (keyed id) a = existsb (keyed id) b.
Proof.
  revert b. induction a as [| x a IH]; intros [| y b] H; try discriminate; [reflexivity |].
  cbn in H. injection H as Hxy Hab. cbn. unfold keyed at 1 3. rewrite Hxy.
  f_equal. now apply IH.
Qed.

Lemma unique_ids (a b : list Row) :
  map session_id a = map session_id b -> unique a = unique b.
Proof.
  revert b. induction a as [| x a IH]; intros [| y b] H; try discriminate; [reflexivity |].
  cbn in H. injection H as Hxy Hab. cbn. rewrite Hxy.
  rewrite (existsb_keyed_ids _ _ _ Hab). f_equal. now apply IH.
Qed.

Lemma existsb_filter (p f : Row -> bool) (rs : list Row) :
  existsb p rs = false -> existsb p (filter f rs) = false.
Proof.
  induction rs as [| x rs IH]; cbn; [reflexivity |].
  rewrite orb_false_iff. intros [Hx Hrs].
  destruct (f x); cbn; [rewrite Hx |]; auto.
Qed.

Lemma unique_filter (f : Row -> bool) (rs : list Row) :
  unique rs = true -> unique (filter f rs) = true.
Proof.
  induction rs as [| x rs IH]; cbn; [reflexivity |].
  rewrite andb_true_iff, negb_true_iff. intros [Hx Hrs].
  destruct (f x); cbn; [| auto].
  rewrite (existsb_filter _ f _ Hx). cbn. auto.
Qed.

Lemma setFields_ids (c : string) (la ex : Z) (id : string) (rs : list Row) :
  map session_id (map (setFields c la ex id) rs) = map session_id rs.
Proof.
  rewrite map_map. apply map_ext. intros r. unfold setFields.
  now destruct (keyed id r).
Qed.

Lemma exec_preserves_unique (q : string) (ps : list Param) (st : Store) :
  unique (rows st) = true -> unique (rows (snd (exec q ps st))) = true.
Proof.
  intros Hu. unfold exec.
  repeat match goal with
         | |- context [match ?x with _ => _ end] => destruct x eqn:?
         end; cbn; auto.
  all: try (rewrite (unique_ids _ _ (setFields_ids _ _ _ _ _)); exact Hu).
  all: try (apply unique_filter; exact Hu).
Qed.

(** *** The sweep *)

(** C3: against a reachable store, [deleteExpiredSessions] removes exactly
    the rows with [last_active + expiration <= now] and a nonzero
    expiration, where [now] is the single clock reading the call takes, and
    reports their number; a row whose expiration is zero survives every
    sweep, whatever its [last_active]. *)
Theorem deleteExpiredSessions_sweeps_exactly
    (driver dsn : string) (oe : option error) (db : Dao unit)
    (w w' : World Store) (n : Z) (err : option error) :
  NewDao driver dsn (table (backend w)) = (Some db, oe) ->
  deleteExpiredSessions db w = ((n, err), w') ->
  let now := clock w (ticks w) in
  ticks w' = S (ticks w) /\
  (forall r, In r (rows (backend w)) -> r_expiration r = 0 -> In r (rows (backend w'))) /\
  (fault (backend w) = None ->
   err = None /\
   n = count (expired now) (rows (backend w)) /\
   rows (backend w') = filter (fun r => negb (expired now r)) (rows (backend w)) /\
   (forall r, In r (rows (backend w')) <->
              In r (rows (backend w)) /\
              ~ (last_active r + r_expiration r <= now /\ r_expiration r <> 0))).
Proof.
  intros Hdb Hrun now.
  destruct (NewDao_statements _ _ _ _ _ Hdb) as (_ & _ & _ & _ & Hq & _ & _).
  unfold deleteExpiredSessions, bind, timeNowUnix, liftB in Hrun.
  cbn [backend dbRowPool clock ticks Exec facade] in Hrun. rewrite Hq in Hrun.
  fold now in Hrun.
  destruct (fault (backend w)) as [e |] eqn:Hf.
  - rewrite (exec_fault _ _ _ e Hf) in Hrun. inversion Hrun; subst; cbn.
    split; [reflexivity |]. split; [auto | discriminate].
  - rewrite (exec_deleteExpired _ now Hf) in Hrun. inversion Hrun; subst; cbn.
    split; [reflexivity |]. split.
    + intros r Hin H0. apply filter_In. split; [exact Hin |].
      unfold expired. rewrite H0. cbn. now rewrite andb_false_r.
    + intros _. split; [reflexivity |]. split; [reflexivity |]. split; [reflexivity |].
      intros r. rewrite filter_In, negb_true_iff.
      pose proof (expired_spec now r) as Hex.
      destruct (expired now r); intuition congruence.
Qed.

(** *** Update *)

(** C9: against a reachable store, [updateBySessionID] rewrites contents,
    lastActive and expiration of the rows keyed by the identifier and
    nothing else: every identifier stays where it was, every other row is
    unchanged, and when no row is keyed by the identifier it reports zero
    affected rows and no error. *)
Theorem updateBySessionID_frame
    (driver dsn : string) (oe : option error) (db : Dao unit)
    (sessID conts : list byte) (lastActiveTime : Z) (expir : Duration)
    (w w' : World Store) (n : Z) (err : option error) :
  NewDao driver dsn (table (backend w)) = (Some db, oe) ->
  fault (backend w) = None ->
  updateBySessionID db sessID conts lastActiveTime expir w = ((n, err), w') ->
  err = None /\
  n = count (keyed (B2S sessID)) (rows (backend w)) /\
  map session_id (rows (backend w')) = map session_id (rows (backend w)) /\
  (forall i r, nth_error (rows (backend w)) i = Some r ->
     nth_error (rows (backend w')) i
     = Some (if String.eqb (session_id r) (B2S sessID)
             then mkRow (session_id r) (B2S conts) lastActiveTime
                        (Int64.div expir Second)
             else r)) /\
  ((forall r, In r (rows (backend w)) -> session_id r <> B2S sessID) ->
   n = 0 /\ rows (backend w') = rows (backend w)).
Proof.
  intros Hdb Hf Hrun.
  destruct (NewDao_statements _ _ _ _ _ Hdb) as (_ & _ & Hq & _).
  unfold updateBySessionID, liftB in Hrun. cbn [Exec facade] in Hrun.
  rewrite Hq in Hrun.
  rewrite (exec_update _ _ _ _ _ Hf) in Hrun. inversion Hrun; subst; cbn.
  split; [reflexivity |]. split; [reflexivity |]. split; [| split].
  - rewrite map_map. apply map_ext. intros r. unfold setFields.
    now destruct (keyed (B2S sessID) r).
  - intros i r Hi. rewrite nth_error_map, Hi. reflexivity.
  - intros Hno. split; [now apply no_key_count |].
    apply (no_key_map _ (B2S sessID)); [| exact Hno].
    intros r Hk. unfold setFields. now rewrite Hk.
Qed.

(** *** Rotation *)

(** C4: [regenerate] never changes the number of rows.  When it succeeds,
    each row keyed by the old identifier is keyed by the new one, with
    lastActive and expiration refreshed and its contents kept, every other
    row is unchanged, and the reported count is the number of rows that
    were keyed by the old identifier; when no row is keyed by the old
    identifier it reports zero rows and leaves the table as it was. *)
Theorem regenerate_renames_in_place
    (driver dsn : string) (oe : option error) (db : Dao unit)
    (oldID newID : list byte) (lastActiveTime : Z) (expir : Duration)
    (w w' : World Store) (n : Z) (err : option error) :
  NewDao driver dsn (table (backend w)) = (Some db, oe) ->
  regenerate db oldID newID lastActiveTime expir w = ((n, err), w') ->
  List.length (rows (backend w')) = List.length (rows (backend w)) /\
  (err = None ->
   n = count (keyed (B2S oldID)) (rows (backend w)) /\
   forall i r, nth_error (rows (backend w)) i = Some r ->
     nth_error (rows (backend w')) i
     = Some (if String.eqb (session_id r) (B2S oldID)
             then mkRow (B2S newID) (r_contents r) lastActiveTime
                        (Int64.div expir Second)
             else r)) /\
  (fault (backend w) = None -> unique (rows (backend w)) = true ->
   (forall r, In r (rows (backend w)) -> session_id r <> B2S oldID) ->
   n = 0 /\ err = None /\ rows (backend w') = rows (backend w)).
Proof.
  intros Hdb Hrun.
  destruct (NewDao_statements _ _ _ _ _ Hdb) as (_ & _ & _ & _ & _ & _ & Hq).
  unfold regenerate, liftB in Hrun. cbn [Exec facade] in Hrun.
  rewrite Hq in Hrun.
  destruct (fault (backend w)) as [e |] eqn:Hf.
  - rewrite (exec_fault _ _ _ e Hf) in Hrun. inversion Hrun; subst; cbn.
    split; [reflexivity |]. split; discriminate.
  - rewrite (exec_regenerate _ _ _ _ _ Hf) in Hrun.
    set (rs' := map _ (rows (backend w))) in Hrun.
    destruct (unique rs') eqn:Hu; inversion Hrun; subst; cbn.
    + split; [apply length_map |]. split.
      * intros _. split; [reflexivity |].
        intros i r Hi. subst rs'. rewrite nth_error_map, Hi. reflexivity.
      * intros _ _ Hno. split; [now apply no_key_count |]. split; [reflexivity |].
        subst rs'. apply (no_key_map _ (B2S oldID)); [| exact Hno].
        intros r Hk. unfold setKey. now rewrite Hk.
    + split; [reflexivity |]. split; [discriminate |].
      intros _ Huniq Hno. exfalso.
      assert (Hsame : rs' = rows (backend w)).
      { subst rs'. apply (no_key_map _ (B2S oldID)); [| exact Hno].
        intros r Hk. unfold setKey. now rewrite Hk. }
      rewrite Hsame in Hu. congruence.
Qed.

(** *** Round trip *)

(** C1: when [insert] of a whole, non-negative number of seconds succeeds,
    [getSessionBySessionID] of the same identifier returns, with no error,
    a record with the inserted identifier, contents and lastActive, and an
    expiration that is exactly that number of seconds. *)
Theorem insert_then_fetch_round_trip
    (driver dsn : string) (oe : option error) (db : Dao unit)
    (sessID conts : list byte) (lastActiveTime secs : Z)
    (w w1 : World Store) (n : Z) :
  NewDao driver dsn (table (backend w)) = (Some db, oe) ->
  0 <= secs -> secs * Second <= Int64.max_signed ->
  insert db sessID conts lastActiveTime (secs * Second) w = ((n, None), w1) ->
  exists (row : DBRow) (w2 : World Store),
    getSessionBySessionID db sessID w1 = ((Some row, None), w2) /\
    sessionID row = B2S sessID /\
    contents row = B2S conts /\
    lastActive row = lastActiveTime /\
    expiration row = secs * Second /\
    Z.quot (expiration row) Second = secs.
Proof.
  intros Hdb H0 Hmax Hrun.
  destruct (NewDao_statements _ _ _ _ _ Hdb) as (Hget & _ & _ & _ & _ & Hins & _).
  unfold insert, liftB in Hrun. cbn [Exec facade] in Hrun.
  rewrite Hins in Hrun.
  destruct (fault (backend w)) as [e |] eqn:Hf.
  { rewrite (exec_fault _ _ _ e Hf) in Hrun. inversion Hrun. }
  rewrite (exec_insert _ _ _ _ _ Hf) in Hrun.
  set (new := mkRow _ _ _ _) in Hrun.
  destruct (unique (rows (backend w) ++ [new])%list) eqn:Hu; inversion Hrun; subst n w1.
  clear Hrun.
  unfold getSessionBySessionID, bind, liftB, ret.
  match goal with |- context [acquireDBRow ?x] => destruct (acquireDBRow x) as [data wa] eqn:Hacq end.
  assert (Hb : backend wa = withRows (backend w) (rows (backend w) ++ [new])%list).
  { pose proof (acquire_backend
      (mkWorld (dbRowPool w) (withRows (backend w) (rows (backend w) ++ [new])%list)
               (clock w) (ticks w))) as Ha.
    rewrite Hacq in Ha. exact Ha. }
  rewrite Hb, Hget. cbn [QueryRow facade].
  change (table (backend w))
    with (table (withRows (backend w) (rows (backend w) ++ [new])%list)).
  rewrite queryRow_get by exact Hf.
  cbn [rows withRows].
  pose proof (unique_snoc_find _ _ Hu) as Hfind. cbn [session_id new] in Hfind.
  subst new. cbn [session_id] in Hfind. rewrite Hfind. cbn.
  rewrite whole_seconds_store_load by assumption.
  eexists _, _. split; [reflexivity |]. cbn.
  repeat split. apply Z.quot_mul. unfold Second. lia.
Qed.

End Table.

(** ** Concrete runs *)

Module Runs.
Import Engine Scenario.

(** The scenario of the specification: insert, fetch, update, fetch,
    delete, fetch. *)
Example scenario_insert_update_delete :
  let w0 := world [] (store []) in
  let (r1, w1) := insert db (bytes "s1") (bytes "a") 1000 (30 * Second) w0 in
  let (f1, w2) := getSessionBySessionID db (bytes "s1") w1 in
  let (r2, w3) := updateBySessionID db (bytes "s1") (bytes "b") 1100 (60 * Second) w2 in
  let (f2, w4) := getSessionBySessionID db (bytes "s1") w3 in
  let (r3, w5) := deleteBySessionID db (bytes "s1") w4 in
  let (f3, _) := getSessionBySessionID db (bytes "s1") w5 in
  r1 = (1, None) /\
  f1 = (Some (mkDBRow "s1" "a" 1000 (30 * Second)), None) /\
  r2 = (1, None) /\
  f2 = (Some (mkDBRow "s1" "b" 1100 (60 * Second)), None) /\
  r3 = (1, None) /\
  f3 = (Some newDBRow, None).
Proof. vm_compute. repeat split. Qed.

(** A second insert under the same identifier fails and changes nothing. *)
Example insert_duplicate_fails :
  let w := world [] (store [s1]) in
  let (r, w') := insert db (bytes "s1") (bytes "z") 5 0 w in
  r = (0, Some uniqueViolation) /\ rows (backend w') = [s1].
Proof. vm_compute. repeat split. Qed.

(** Rotation: the old identifier no longer resolves, the new one returns
    the rotated record, and the table still holds two rows. *)
Example regenerate_then_fetch :
  let w0 := world [] (store [keep; s1]) in
  let (r, w1) := regenerate db (bytes "s1") (bytes "s9") 1500 (45 * Second) w0 in
  let (fOld, w2) := getSessionBySessionID db (bytes "s1") w1 in
  let (fNew, w3) := getSessionBySessionID db (bytes "s9") w2 in
  r = (1, None) /\
  fOld = (Some newDBRow, None) /\
  fNew = (Some (mkDBRow "s9" "a" 1500 (45 * Second)), None) /\
  countSessions db w3 = (2, w3).
Proof. vm_compute. repeat split. Qed.

(** The sweep of the specification's example: the row that never expires
    stays, the row whose window has elapsed goes. *)
Example sweep_keeps_non_expiring :
  let w0 := world [] (store [keep; s1]) in
  let (r, w1) := deleteExpiredSessions db w0 in
  r = (1, None) /\ rows (backend w1) = [keep] /\ ticks w1 = 1%nat.
Proof. vm_compute. repeat split. Qed.

(** C2: the table holds only "s1"; the caller fetches "s1", releases the
    record and then fetches "s2", for which the store reports no rows.  The
    call returns no error and a record with an empty identifier, empty
    contents and a zero lastActive, but its expiration is the released
    record's 30 s multiplied once more by one second (wrapped to int64),
    not zero. *)
Theorem fetch_missing_after_release_not_zero :
  dbRowPool afterRelease = [mkDBRow "" "" 0 30000000000] /\
  fst (getSessionBySessionID db (bytes "s2") afterRelease)
    = (Some (mkDBRow "" "" 0 (-6893488147419103232)), None) /\
  fst (getSessionBySessionID db (bytes "s2") afterRelease) <> (Some newDBRow, None).
Proof.
  split; [reflexivity |].
  assert (H : fst (getSessionBySessionID db (bytes "s2") afterRelease)
              = (Some (mkDBRow "" "" 0 (-6893488147419103232)), None))
    by (vm_compute; reflexivity).
  split; [exact H |]. rewrite H. discriminate.
Qed.

(** C6 (counterexample): with one record in the pool, a fetch against an
    unreachable store returns the error and leaves the pool empty, and a
    fetch that finds its row leaves the pool empty too and hands out the
    populated record: in neither call is the acquired record reset and put
    back before the call returns. *)
Lemma fetch_does_not_release :
  let wErr := world [newDBRow] (unreachable [s1]) in
  let wOk := world [newDBRow] (store [s1]) in
  (fst (getSessionBySessionID db (bytes "s1") wErr)
     = (None, Some (ErrOther "dial tcp: connection refused")) /\
   dbRowPool (snd (getSessionBySessionID db (bytes "s1") wErr)) = [] /\
   poolIfReleased wErr = [newDBRow] /\
   ~ releasedOnReturn db (bytes "s1") wErr) /\
  (fst (getSessionBySessionID db (bytes "s1") wOk)
     = (Some (mkDBRow "s1" "a" 1000 (30 * Second)), None) /\
   dbRowPool (snd (getSessionBySessionID db (bytes "s1") wOk)) = [] /\
   ~ releasedOnReturn db (bytes "s1") wOk).
Proof.
  cbv zeta. unfold releasedOnReturn.
  repeat split; try (vm_compute; reflexivity); vm_compute; discriminate.
Qed.

End Runs.

(** ** The theorems at concrete inputs *)

Module Witness.
Import Engine Scenario.

Lemma insert_then_fetch_round_trip_witness :
  exists (row : DBRow) (w2 : World Store),
    getSessionBySessionID db (bytes "s1")
      (snd (insert db (bytes "s1") (bytes "a") 1000 (30 * Second) (world [] (store []))))
    = ((Some row, None), w2) /\
    sessionID row = "s1" /\ contents row = "a" /\ lastActive row = 1000 /\
    expiration row = 30 * Second /\ Z.quot (expiration row) Second = 30.
Proof.
  apply (Table.insert_then_fetch_round_trip "postgres" "host=localhost" None db
           (bytes "s1") (bytes "a") 1000 30 (world [] (store [])) _ 1).
  - reflexivity.
  - lia.
  - unfold Second, Int64.max_signed. lia.
  - reflexivity.
Defined.

Lemma deleteExpiredSessions_sweeps_exactly_witness :
  let w := world [] (store [keep; s1]) in
  let w' := snd (deleteExpiredSessions db w) in
  clock w (ticks w) = 2000 /\
  ticks w' = 1%nat /\
  fst (deleteExpiredSessions db w) = (1, None) /\
  rows (backend w') = [keep].
Proof.
  cbv zeta.
  destruct (Table.deleteExpiredSessions_sweeps_exactly "postgres" "host=localhost" None db
              (world [] (store [keep; s1]))
              (snd (deleteExpiredSessions db (world [] (store [keep; s1]))))
              1 None ltac:(reflexivity) ltac:(reflexivity)) as (Ht & _ & Hx).
  destruct (Hx eq_refl) as (_ & _ & Hr & _).
  split; [reflexivity |]. split; [exact Ht |]. split; [reflexivity | exact Hr].
Defined.

Lemma updateBySessionID_frame_witness :
  let w := world [] (store [keep; s1]) in
  let w' := snd (updateBySessionID db (bytes "s1") (bytes "b") 1100 (60 * Second) w) in
  fst (updateBySessionID db (bytes "s1") (bytes "b") 1100 (60 * Second) w) = (1, None) /\
  map session_id (rows (backend w')) = ["keep"; "s1"] /\
  nth_error (rows (backend w')) 0 = Some keep /\
  nth_error (rows (backend w')) 1 = Some (mkRow "s1" "b" 1100 60).
Proof.
  cbv zeta.
  destruct (Table.updateBySessionID_frame "postgres" "host=localhost" None db
              (bytes "s1") (bytes "b") 1100 (60 * Second)
              (world [] (store [keep; s1]))
              (snd (updateBySessionID db (bytes "s1") (bytes "b") 1100 (60 * Second)
                      (world [] (store [keep; s1]))))
              1 None ltac:(reflexivity) ltac:(reflexivity) ltac:(reflexivity)) as (_ & _ & Hids & Hnth & _).
  split; [reflexivity |]. split; [exact Hids |].
  split; [exact (Hnth 0%nat keep eq_refl) | exact (Hnth 1%nat s1 eq_refl)].
Defined.

Lemma regenerate_renames_in_place_witness :
  let w := world [] (store [keep; s1]) in
  let w' := snd (regenerate db (bytes "s1") (bytes "s9") 1500 1900000000 w) in
  fst (regenerate db (bytes "s1") (bytes "s9") 1500 1900000000 w) = (1, None) /\
  List.length (rows (backend w')) = 2%nat /\
  nth_error (rows (backend w')) 0 = Some keep /\
  nth_error (rows (backend w')) 1 = Some (mkRow "s9" "a" 1500 1).
Proof.
  cbv zeta.
  destruct (Table.regenerate_renames_in_place "postgres" "host=localhost" None db
              (bytes "s1") (bytes "s9") 1500 1900000000
              (world [] (store [keep; s1]))
              (snd (regenerate db (bytes "s1") (bytes "s9") 1500 1900000000
                      (world [] (store [keep; s1]))))
              1 None ltac:(reflexivity) ltac:(reflexivity)) as (Hlen & Hok & _).
  destruct (Hok eq_refl) as (_ & Hnth).
  split; [reflexivity |]. split; [exact Hlen |].
  split; [exact (Hnth 0%nat keep eq_refl) | exact (Hnth 1%nat s1 eq_refl)].
Defined.

Lemma fetch_hands_record_to_caller_witness :
  let w := world [newDBRow] (store [s1]) in
  let row := mkDBRow "s1" "a" 1000 (30 * Second) in
  let w' := snd (getSessionBySessionID db (bytes "s1") w) in
  fst (getSessionBySessionID db (bytes "s1") w) = (Some row, None) /\
  dbRowPool w' = [] /\
  dbRowPool (snd (releaseDBRow row w')) = [mkDBRow "" "" 0 (30 * Second)] /\
  fst (acquireDBRow (snd (releaseDBRow row w'))) = mkDBRow "" "" 0 (30 * Second) /\
  ~ releasedOnReturn db (bytes "s1") w.
Proof.
  cbv zeta.
  assert (Hrun : getSessionBySessionID db (bytes "s1") (world [newDBRow] (store [s1]))
                 = ((Some (mkDBRow "s1" "a" 1000 (30 * Second)), None),
                    snd (getSessionBySessionID db (bytes "s1")
                           (world [newDBRow] (store [s1])))))
    by (vm_compute; reflexivity).
  destruct (fetch_hands_record_to_caller db (bytes "s1")
              (world [newDBRow] (store [s1]))
              (snd (getSessionBySessionID db (bytes "s1") (world [newDBRow] (store [s1]))))
              (Some (mkDBRow "s1" "a" 1000 (30 * Second)), None) Hrun)
    as (Hpool & Hnot & _ & _ & Hrow).
  destruct (Hrow (mkDBRow "s1" "a" 1000 (30 * Second)) None eq_refl)
    as (_ & _ & Hrel & Hnext).
  split; [vm_compute; reflexivity |].
  split; [exact Hpool |]. split; [exact Hrel |]. split; [exact Hnext | exact Hnot].
Defined.

Lemma bound_expiration_truncates_witness :
  exists q : Z,
    insert db (bytes "s1") (bytes "a") 1000 1900000000
    = liftB (Exec (sqlInsert db) [PStr "s1"; PStr "a"; PInt 1000; PInt q]) /\
    updateBySessionID db (bytes "s1") (bytes "a") 1000 1900000000
    = liftB (Exec (sqlUpdateBySessionID db) [PStr "a"; PInt 1000; PInt q; PStr "s1"]) /\
    q = 1.
Proof.
  assert (Hr : Int64.in_range 1900000000)
    by (unfold Int64.in_range, Int64.min_signed, Int64.max_signed; lia).
  destruct (bound_expiration_truncates db (bytes "s1") (bytes "a") 1000 1900000000 Hr)
    as (q & Hi & Hu & _ & _ & _ & H19).
  exists q. split; [exact Hi |]. split; [exact Hu | exact (H19 eq_refl)].
Defined.

End Witness.

(** * Further properties of the access layer *)

(** ** Conversions between durations and stored seconds *)

(** The store conversion followed by the load conversion
    ([expiration/time.Second], then [*= time.Second]) keeps the whole
    seconds of a duration and drops the rest: the result stays an int64,
    is never larger in magnitude than the duration, differs from it by less
    than one second, and is left unchanged by a second store and load. *)
Theorem store_load_truncates (e : Duration) :
  Int64.in_range e ->
  let e' := Int64.mul (Int64.div e Second) Second in
  e' = Z.quot e Second * Second /\
  Int64.in_range e' /\
  Z.abs e' <= Z.abs e /\
  Z.abs (e - e') < Second /\
  Int64.mul (Int64.div e' Second) Second = e'.
Proof.
  intros Hr. cbv zeta.
  assert (Hq : Int64.in_range (Z.quot e Second * Second)).
  { unfold Int64.in_range, Int64.min_signed, Int64.max_signed, Second in *.
    Z.to_euclidean_division_equations. lia. }
  assert (He : Int64.mul (Int64.div e Second) Second = Z.quot e Second * Second).
  { rewrite (div_Second _ Hr). unfold Int64.mul. now apply wrap_in_range. }
  rewrite He. split; [reflexivity |]. split; [exact Hq |].
  split; [| split].
  - unfold Second. Z.to_euclidean_division_equations. lia.
  - unfold Second. Z.to_euclidean_division_equations. lia.
  - rewrite (div_Second _ Hq).
    rewrite Z.quot_mul by (unfold Second; lia).
    unfold Int64.mul. now apply wrap_in_range.
Qed.

(** ** The pool and the clock, over an arbitrary facade *)

Section Discipline.

Context {St Conn : Type} `{F : Facade St Conn}.

Variable db : Dao Conn.

Lemma fetch_world (sessID : list byte) (w : World St) :
  snd (getSessionBySessionID db sessID w)
  = mkWorld (tl (dbRowPool w))
            (snd (QueryRow (sqlGetSessionBySessionID db) [PStr (B2S sessID)] (backend w)))
            (clock w) (ticks w).
Proof.
  unfold getSessionBySessionID, bind, liftB, ret, acquireDBRow.
  destruct (dbRowPool w) as [| row rest] eqn:Hp; cbn [backend dbRowPool clock ticks];
    rewrite ?Hp;
    destruct (QueryRow _ _ (backend w)) as [[e | h] s']; cbn; try reflexivity.
  - destruct (scanDBRow h newDBRow) as [d' [e |]]; [destruct (negb _) |]; reflexivity.
  - destruct (scanDBRow h row) as [d' [e |]]; [destruct (negb _) |]; reflexivity.
Qed.

Lemma fetch_value (sessID : list byte) (w : World St) :
  fst (getSessionBySessionID db sessID w)
  = match fst (QueryRow (sqlGetSessionBySessionID db) [PStr (B2S sessID)] (backend w)) with
    | inl e => (None, Some e)
    | inr h =>
        let (d, err) := scanDBRow h (fst (acquireDBRow w)) in
        let loaded := mkDBRow (sessionID d) (contents d) (lastActive d)
                              (Int64.mul (expiration d) Second) in
        match err with
        | Some e => if negb (error_eqb e ErrNoRows) then (None, Some e)
                    else (Some loaded, None)
        | None => (Some loaded, None)
        end
    end.
Proof.
  unfold getSessionBySessionID, bind, liftB, ret, acquireDBRow.
  destruct (dbRowPool w) as [| row rest] eqn:Hp; cbn [backend dbRowPool clock ticks fst];
    destruct (QueryRow _ _ (backend w)) as [[e | h] s']; cbn; try reflexivity.
  - destruct (scanDBRow h newDBRow) as [d' [e |]]; [destruct (negb _) |]; reflexivity.
  - destruct (scanDBRow h row) as [d' [e |]]; [destruct (negb _) |]; reflexivity.
Qed.

(** [getSessionBySessionID] returns either an error and no record, or a
    record and no error: never both, never neither. *)
Theorem fetch_record_xor_error (sessID : list byte) (w : World St) :
  (exists e, fst (getSessionBySessionID db sessID w) = (None, Some e)) \/
  (exists row, fst (getSessionBySessionID db sessID w) = (Some row, None)).
Proof.
  rewrite fetch_value.
  destruct (fst (QueryRow _ _ (backend w))) as [e | h]; [left; eauto |].
  destruct (scanDBRow h _) as [d [e |]]; [destruct (negb _) |]; eauto.
Qed.

(** Whatever the outcome, [getSessionBySessionID] takes the record on top
    of the pool (if there is one) and puts nothing back, and it does not
    read the clock. *)
Theorem fetch_takes_one_record (sessID : list byte) (w : World St) :
  dbRowPool (snd (getSessionBySessionID db sessID w)) = tl (dbRowPool w) /\
  ticks (snd (getSessionBySessionID db sessID w)) = ticks w /\
  clock (snd (getSessionBySessionID db sessID w)) = clock w.
Proof. rewrite fetch_world. repeat split. Qed.

(** The count and the five statements that change the table never touch
    the pool; [deleteExpiredSessions] is the only operation that reads the
    clock, and it reads it once. *)
Theorem only_the_sweep_reads_the_clock
    (a b : list byte) (lastActiveTime : Z) (expir : Duration) (w : World St) :
  let unchanged (w' : World St) :=
    dbRowPool w' = dbRowPool w /\ ticks w' = ticks w in
  unchanged (snd (countSessions db w)) /\
  unchanged (snd (updateBySessionID db a b lastActiveTime expir w)) /\
  unchanged (snd (deleteBySessionID db a w)) /\
  unchanged (snd (insert db a b lastActiveTime expir w)) /\
  unchanged (snd (regenerate db a b lastActiveTime expir w)) /\
  dbRowPool (snd (deleteExpiredSessions db w)) = dbRowPool w /\
  ticks (snd (deleteExpiredSessions db w)) = S (ticks w).
Proof.
  cbv zeta.
  unfold countSessions, updateBySessionID, deleteBySessionID, insert, regenerate,
    deleteExpiredSessions, timeNowUnix, bind, liftB, ret.
  cbn [backend dbRowPool clock ticks].
  repeat match goal with
         | |- context [Exec ?q ?ps ?s] => destruct (Exec q ps s) as [? ?]
         end.
  destruct (QueryRow _ _ (backend w)) as [[e | h] s']; cbn.
  - repeat split.
  - destruct (scanInt h 0) as [t [e |]]; cbn; repeat split.
Qed.

(** *** Cleared records *)

Lemma Reset_cleared (row : DBRow) : cleared (Reset row).
Proof. repeat split. Qed.

Lemma acquire_cleared (w : World St) :
  poolCleared w ->
  cleared (fst (acquireDBRow w)) /\ poolCleared (snd (acquireDBRow w)).
Proof.
  unfold poolCleared, acquireDBRow. intros Hc.
  destruct (dbRowPool w) as [| row rest] eqn:Hp; cbn.
  - split; [repeat split | now rewrite Hp].
  - inversion Hc; subst. split; assumption.
Qed.

(** If every record waiting in the pool is cleared, this stays so through
    every release, acquisition and access operation, and every record an
    acquisition hands out is cleared. *)
Theorem pool_stays_cleared
    (a b : list byte) (lastActiveTime : Z) (expir : Duration)
    (row : DBRow) (w : World St) :
  poolCleared w ->
  cleared (fst (acquireDBRow w)) /\
  poolCleared (snd (acquireDBRow w)) /\
  poolCleared (snd (releaseDBRow row w)) /\
  poolCleared (snd (getSessionBySessionID db a w)) /\
  poolCleared (snd (countSessions db w)) /\
  poolCleared (snd (updateBySessionID db a b lastActiveTime expir w)) /\
  poolCleared (snd (deleteBySessionID db a w)) /\
  poolCleared (snd (deleteExpiredSessions db w)) /\
  poolCleared (snd (insert db a b lastActiveTime expir w)) /\
  poolCleared (snd (regenerate db a b lastActiveTime expir w)).
Proof.
  intros Hc.
  destruct (acquire_cleared w Hc) as [Hrow Hrest].
  split; [exact Hrow |]. split; [exact Hrest |].
  split; [constructor; [apply Reset_cleared | exact Hc] |].
  split.
  { unfold poolCleared. rewrite fetch_world. cbn.
    unfold poolCleared in Hc. destruct (dbRowPool w); [constructor |].
    now inversion Hc. }
  unfold poolCleared in *.
  unfold countSessions, updateBySessionID, deleteBySessionID, insert, regenerate,
    deleteExpiredSessions, timeNowUnix, bind, liftB, ret.
  cbn [backend dbRowPool clock ticks].
  repeat match goal with
         | |- context [Exec ?q ?ps ?s] => destruct (Exec q ps s) as [? ?]
         end.
  destruct (QueryRow _ _ (backend w)) as [[e | h] s']; cbn.
  - repeat split; exact Hc.
  - destruct (scanInt h 0) as [t [e |]]; cbn; repeat split; exact Hc.
Qed.

(** When every pooled record is cleared and the store reports no rows, the
    fetch returns, with no error, a record whose identifier and contents
    are empty and whose lastActive is zero: an empty identifier is how the
    caller sees that the session is absent. *)
Theorem fetch_no_rows_is_cleared (sessID : list byte) (w : World St) :
  poolCleared w ->
  fst (QueryRow (sqlGetSessionBySessionID db) [PStr (B2S sessID)] (backend w))
    = inr (RowErr ErrNoRows) ->
  exists row,
    fst (getSessionBySessionID db sessID w) = (Some row, None) /\ cleared row.
Proof.
  intros Hc Hq. rewrite fetch_value, Hq. cbn.
  eexists. split; [reflexivity |].
  destruct (acquire_cleared w Hc) as [(Hi & Hco & Hl) _].
  repeat split; cbn; assumption.
Qed.

(** When the query returns a row of the four columns, the fetch returns
    exactly those columns, the expiration multiplied by one second with
    int64 wrap-around, whatever record the pool handed out; the expiration
    is the exact number of seconds whenever that product fits an int64. *)
Theorem fetch_found_overwrites_record
    (sessID : list byte) (w : World St) (sid c : string) (la ex : Z) :
  fst (QueryRow (sqlGetSessionBySessionID db) [PStr (B2S sessID)] (backend w))
    = inr (RowCols [PStr sid; PStr c; PInt la; PInt ex]) ->
  fst (getSessionBySessionID db sessID w)
    = (Some (mkDBRow sid c la (Int64.mul ex Second)), None) /\
  Int64.in_range (Int64.mul ex Second) /\
  (Int64.in_range (ex * Second) -> Int64.mul ex Second = ex * Second).
Proof.
  intros Hq. rewrite fetch_value, Hq. cbn. split; [reflexivity |]. split.
  - unfold Int64.mul, Int64.wrap, Int64.in_range, Int64.min_signed,
      Int64.max_signed, Int64.modulus.
    pose proof (Z.mod_pos_bound (ex * Second - - 2 ^ 63) (2 ^ 64) ltac:(lia)). lia.
  - intros Hr. unfold Int64.mul. now apply wrap_in_range.
Qed.

End Discipline.

(** ** Operations composed over the table engine *)

Module TableLaws.
Import Engine EngineFacts Table.

(** *** Helpers *)

Lemma mul_div_Second (e : Duration) :
  Int64.in_range e ->
  Int64.mul (Int64.div e Second) Second = Z.quot e Second * Second.
Proof.
  intros Hr. rewrite (div_Second _ Hr). unfold Int64.mul. apply wrap_in_range.
  unfold Int64.in_range, Int64.min_signed, Int64.max_signed, Second in *.
  Z.to_euclidean_division_equations. lia.
Qed.

Lemma exec_delete (st : Store) (id : string) :
  fault st = None ->
  exec (Sprintf Template.deleteBySessionID [table st]) [PStr id] st
  = ((count (keyed id) (rows st), None),
     withRows st (filter (fun r => negb (keyed id r)) (rows st))).
Proof. intros H. unfold exec. now rewrite H, parse_deleteBySessionID. Qed.

Lemma queryRow_count (st : Store) :
  fault st = None ->
  queryRow (Sprintf Template.countSessions [table st]) [] st
  = (inr (RowCols [PInt (Z.of_nat (List.length (rows st)))]), st).
Proof. intros H. unfold queryRow. now rewrite H, parse_countSessions. Qed.

Lemma filter_split_length (f : Row -> bool) (rs : list Row) :
  count f rs + Z.of_nat (List.length (filter (fun r => negb (f r)) rs))
  = Z.of_nat (List.length rs).
Proof.
  unfold count. induction rs as [| a rs IH]; [reflexivity |].
  cbn [filter]. destruct (f a); cbn [negb List.length]; lia.
Qed.

Lemma find_absent (f : Row -> bool) (rs : list Row) :
  (forall r, In r rs -> f r = false) -> find f rs = None.
Proof.
  induction rs as [| a rs IH]; intros H; [reflexivity |].
  cbn. rewrite (H a (or_introl eq_refl)). apply IH. intros r Hr. apply H. now right.
Qed.

Lemma find_setFields (c : string) (la ex : Z) (id : string) (rs : list Row) (r0 : Row) :
  find (keyed id) rs = Some r0 ->
  find (keyed id) (map (setFields c la ex id) rs) = Some (mkRow (session_id r0) c la ex).
Proof.
  induction rs as [| a rs IH]; [discriminate |].
  cbn [find map]. destruct (keyed id a) eqn:Ha.
  - intros H. injection H as <-.
    assert (Hk : keyed id (setFields c la ex id a) = true)
      by (unfold setFields; rewrite Ha; exact Ha).
    rewrite Hk. unfold setFields. now rewrite Ha.
  - assert (Hk : keyed id (setFields c la ex id a) = false)
      by (unfold setFields; rewrite Ha; exact Ha).
    rewrite Hk. exact IH.
Qed.

Lemma unique_find (rs : list Row) (x : Row) :
  unique rs = true -> In x rs -> find (keyed (session_id x)) rs = Some x.
Proof.
  induction rs as [| a rs IH]; [intros _ [] |].
  cbn. rewrite andb_true_iff, negb_true_iff. intros [Hex Hu] [-> | Hin].
  - unfold keyed. now rewrite String.eqb_refl.
  - destruct (keyed (session_id x) a) eqn:Ha; [| now apply IH].
    exfalso. apply keyed_spec in Ha.
    assert (Hx : existsb (keyed (session_id a)) rs = true).
    { apply existsb_exists. exists x. split; [exact Hin |].
      apply keyed_spec. now rewrite Ha. }
    congruence.
Qed.

Lemma fetch_reachable
    (driver dsn : string) (oe : option error) (db : Dao unit)
    (sessID : list byte) (w : World Store) :
  NewDao driver dsn (table (backend w)) = (Some db, oe) ->
  fault (backend w) = None ->
  fst (getSessionBySessionID db sessID w)
  = match find (keyed (B2S sessID)) (rows (backend w)) with
    | Some r =>
        (Some (mkDBRow (session_id r) (r_contents r) (last_active r)
                       (Int64.mul (r_expiration r) Second)), None)
    | None =>
        let d := fst (acquireDBRow w) in
        (Some (mkDBRow (sessionID d) (contents d) (lastActive d)
                       (Int64.mul (expiration d) Second)), None)
    end.
Proof.
  intros Hdb Hf.
  destruct (NewDao_statements _ _ _ _ _ Hdb) as (Hget & _).
  rewrite fetch_value, Hget. cbn [QueryRow facade].
  rewrite (queryRow_get _ _ Hf).
  destruct (find _ _) as [r |]; reflexivity.
Qed.

(** What a successful [insert] leaves behind. *)
Lemma insert_success
    (driver dsn : string) (oe : option error) (db : Dao unit)
    (sessID conts : list byte) (lastActiveTime : Z) (expir : Duration)
    (w w1 : World Store) (n : Z) :
  NewDao driver dsn (table (backend w)) = (Some db, oe) ->
  insert db sessID conts lastActiveTime expir w = ((n, None), w1) ->
  let new := mkRow (B2S sessID) (B2S conts) lastActiveTime (Int64.div expir Second) in
  fault (backend w) = None /\ n = 1 /\
  unique (rows (backend w) ++ [new])%list = true /\
  w1 = mkWorld (dbRowPool w) (withRows (backend w) (rows (backend w) ++ [new])%list)
               (clock w) (ticks w).
Proof.
  intros Hdb Hrun new.
  destruct (NewDao_statements _ _ _ _ _ Hdb) as (_ & _ & _ & _ & _ & Hins & _).
  unfold insert, liftB in Hrun. cbn [Exec facade] in Hrun. rewrite Hins in Hrun.
  destruct (fault (backend w)) as [e |] eqn:Hf.
  { rewrite (exec_fault _ _ _ e Hf) in Hrun. inversion Hrun. }
  rewrite (exec_insert _ _ _ _ _ Hf) in Hrun. fold new in Hrun.
  destruct (unique (rows (backend w) ++ [new])%list) eqn:Hu; inversion Hrun; subst.
  repeat split.
Qed.

(** What a successful [regenerate] leaves behind. *)
Lemma regenerate_success
    (driver dsn : string) (oe : option error) (db : Dao unit)
    (oldID newID : list byte) (lastActiveTime : Z) (expir : Duration)
    (w w1 : World Store) (n : Z) :
  NewDao driver dsn (table (backend w)) = (Some db, oe) ->
  regenerate db oldID newID lastActiveTime expir w = ((n, None), w1) ->
  let rs' := map (setKey (B2S newID) lastActiveTime (Int64.div expir Second) (B2S oldID))
                 (rows (backend w)) in
  fault (backend w) = None /\ unique rs' = true /\
  w1 = mkWorld (dbRowPool w) (withRows (backend w) rs') (clock w) (ticks w).
Proof.
  intros Hdb Hrun rs'.
  destruct (NewDao_statements _ _ _ _ _ Hdb) as (_ & _ & _ & _ & _ & _ & Hq).
  unfold regenerate, liftB in Hrun. cbn [Exec facade] in Hrun. rewrite Hq in Hrun.
  destruct (fault (backend w)) as [e |] eqn:Hf.
  { rewrite (exec_fault _ _ _ e Hf) in Hrun. inversion Hrun. }
  rewrite (exec_regenerate _ _ _ _ _ Hf) in Hrun. fold rs' in Hrun.
  destruct (unique rs') eqn:Hu; inversion Hrun; subst. repeat split.
Qed.

Lemma keyed_exists_find (id : string) (rs : list Row) (r0 : Row) :
  In r0 rs -> session_id r0 = id ->
  exists r, find (keyed id) rs = Some r /\ In r rs /\ session_id r = id.
Proof.
  intros Hin Hid. destruct (find (keyed id) rs) as [r |] eqn:Hfind.
  - apply find_some in Hfind. destruct Hfind as [Hr Hk].
    exists r. repeat split; [exact Hr | now apply keyed_spec].
  - exfalso. pose proof (find_none _ _ Hfind r0 Hin) as Hk.
    apply keyed_spec in Hid. congruence.
Qed.

(** *** Round trip of an arbitrary duration *)

(** After a successful [insert] of any duration, the fetch of the same
    identifier returns the inserted identifier, contents and lastActive,
    and the duration cut down to its whole seconds (toward zero). *)
Theorem insert_then_fetch_truncates
    (driver dsn : string) (oe : option error) (db : Dao unit)
    (sessID conts : list byte) (lastActiveTime : Z) (expir : Duration)
    (w w1 : World Store) (n : Z) :
  NewDao driver dsn (table (backend w)) = (Some db, oe) ->
  Int64.in_range expir ->
  insert db sessID conts lastActiveTime expir w = ((n, None), w1) ->
  fst (getSessionBySessionID db sessID w1)
  = (Some (mkDBRow (B2S sessID) (B2S conts) lastActiveTime
                   (Z.quot expir Second * Second)), None).
Proof.
  intros Hdb Hr Hrun.
  destruct (insert_success _ _ _ _ _ _ _ _ _ _ _ Hdb Hrun) as (Hf & _ & Hu & ->).
  match goal with
  | |- fst (getSessionBySessionID _ _ ?x) = _ =>
      rewrite (fetch_reachable driver dsn oe db sessID x Hdb Hf)
  end.
  cbn [backend rows withRows].
  pose proof (unique_snoc_find _ _ Hu) as Hfind. cbn [session_id] in Hfind.
  rewrite Hfind. cbn [session_id r_contents last_active r_expiration].
  now rewrite (mul_div_Second _ Hr).
Qed.

(** *** Delete *)

(** Against a reachable store, [deleteBySessionID] removes the rows keyed
    by the identifier and no other row, and reports how many it removed;
    afterwards no row is keyed by that identifier, and deleting it again
    reports zero rows and no error. *)
Theorem deleteBySessionID_removes_key
    (driver dsn : string) (oe : option error) (db : Dao unit)
    (sessID : list byte) (w w' : World Store) (n : Z) (err : option error) :
  NewDao driver dsn (table (backend w)) = (Some db, oe) ->
  fault (backend w) = None ->
  deleteBySessionID db sessID w = ((n, err), w') ->
  err = None /\
  rows (backend w')
  = filter (fun r => negb (keyed (B2S sessID) r)) (rows (backend w)) /\
  n + Z.of_nat (List.length (rows (backend w')))
  = Z.of_nat (List.length (rows (backend w))) /\
  (forall r, In r (rows (backend w')) <->
             In r (rows (backend w)) /\ session_id r <> B2S sessID) /\
  fst (deleteBySessionID db sessID w') = (0, None).
Proof.
  intros Hdb Hf Hrun.
  destruct (NewDao_statements _ _ _ _ _ Hdb) as (_ & _ & _ & Hq & _).
  unfold deleteBySessionID, liftB in *. cbn [Exec facade] in *. rewrite Hq in *.
  rewrite (exec_delete _ _ Hf) in Hrun. inversion Hrun; subst; clear Hrun.
  cbn [backend rows withRows].
  assert (Hiff : forall r,
             In r (filter (fun r => negb (keyed (B2S sessID) r)) (rows (backend w))) <->
             In r (rows (backend w)) /\ session_id r <> B2S sessID).
  { intros r. rewrite filter_In, negb_true_iff.
    pose proof (keyed_spec (B2S sessID) r) as Hk.
    destruct (keyed (B2S sessID) r); intuition congruence. }
  split; [reflexivity |]. split; [reflexivity |].
  split; [apply filter_split_length |]. split; [exact Hiff |].
  change (table (backend w))
    with (table (withRows (backend w)
                   (filter (fun r => negb (keyed (B2S sessID) r)) (rows (backend w))))).
  rewrite exec_delete by exact Hf. cbn [fst rows withRows].
  rewrite no_key_count; [reflexivity |].
  intros r Hr. now apply Hiff in Hr.
Qed.

(** *** Update, then fetch *)

(** Against a reachable store holding a row keyed by the identifier, a
    fetch after [updateBySessionID] returns the new contents and
    lastActive, and the new expiration cut down to whole seconds. *)
Theorem update_then_fetch
    (driver dsn : string) (oe : option error) (db : Dao unit)
    (sessID conts : list byte) (lastActiveTime : Z) (expir : Duration)
    (w : World Store) (r0 : Row) :
  NewDao driver dsn (table (backend w)) = (Some db, oe) ->
  fault (backend w) = None ->
  Int64.in_range expir ->
  In r0 (rows (backend w)) -> session_id r0 = B2S sessID ->
  fst (getSessionBySessionID db sessID
         (snd (updateBySessionID db sessID conts lastActiveTime expir w)))
  = (Some (mkDBRow (B2S sessID) (B2S conts) lastActiveTime
                   (Z.quot expir Second * Second)), None).
Proof.
  intros Hdb Hf Hr Hin Hid.
  destruct (NewDao_statements _ _ _ _ _ Hdb) as (_ & _ & Hq & _).
  unfold updateBySessionID, liftB. cbn [Exec facade]. rewrite Hq.
  rewrite (exec_update _ _ _ _ _ Hf). cbn [snd].
  match goal with
  | |- fst (getSessionBySessionID _ _ ?x) = _ =>
      rewrite (fetch_reachable driver dsn oe db sessID x Hdb Hf)
  end.
  cbn [backend rows withRows].
  destruct (keyed_exists_find _ _ _ Hin Hid) as (r & Hfind & _ & Hrid).
  rewrite (find_setFields _ _ _ _ _ _ Hfind).
  cbn [session_id r_contents last_active r_expiration].
  now rewrite Hrid, (mul_div_Second _ Hr).
Qed.

(** *** Rotation, then fetch *)

(** After a successful [regenerate] of an existing identifier to a
    different one, the old identifier finds no row (its fetch returns the
    record the pool handed out, with no error), and the fetch of the new
    identifier returns the row's previous contents with the refreshed
    lastActive and the expiration cut down to whole seconds. *)
Theorem rotation_then_fetch
    (driver dsn : string) (oe : option error) (db : Dao unit)
    (oldID newID : list byte) (lastActiveTime : Z) (expir : Duration)
    (w w1 : World Store) (n : Z) (r0 : Row) :
  NewDao driver dsn (table (backend w)) = (Some db, oe) ->
  Int64.in_range expir ->
  In r0 (rows (backend w)) -> session_id r0 = B2S oldID ->
  B2S oldID <> B2S newID ->
  regenerate db oldID newID lastActiveTime expir w = ((n, None), w1) ->
  find (keyed (B2S oldID)) (rows (backend w1)) = None /\
  fst (getSessionBySessionID db oldID w1)
  = (let d := fst (acquireDBRow w1) in
     (Some (mkDBRow (sessionID d) (contents d) (lastActive d)
                    (Int64.mul (expiration d) Second)), None)) /\
  fst (getSessionBySessionID db newID w1)
  = (Some (mkDBRow (B2S newID) (r_contents r0) lastActiveTime
                   (Z.quot expir Second * Second)), None).
Proof.
  intros Hdb Hr Hin Hid Hne Hrun.
  destruct (regenerate_success _ _ _ _ _ _ _ _ _ _ _ Hdb Hrun) as (Hf & Hu & ->).
  set (rs' := map _ (rows (backend w))) in *.
  assert (Hold : find (keyed (B2S oldID)) rs' = None).
  { apply find_absent. intros x Hx. subst rs'.
    apply in_map_iff in Hx. destruct Hx as (r & <- & _).
    unfold setKey. destruct (keyed (B2S oldID) r) eqn:Hk; [| exact Hk].
    unfold keyed. cbn. apply String.eqb_neq. congruence. }
  assert (Hnew : find (keyed (B2S newID)) rs'
                 = Some (mkRow (B2S newID) (r_contents r0) lastActiveTime
                               (Int64.div expir Second))).
  { apply (unique_find rs' (mkRow (B2S newID) (r_contents r0) lastActiveTime
                                  (Int64.div expir Second)) Hu).
    subst rs'. apply in_map_iff. exists r0. split; [| exact Hin].
    unfold setKey. apply keyed_spec in Hid. now rewrite Hid. }
  split; [exact Hold |]. split.
  - match goal with
    | |- fst (getSessionBySessionID _ _ ?x) = _ =>
        rewrite (fetch_reachable driver dsn oe db oldID x Hdb Hf)
    end.
    cbn [backend rows withRows]. now rewrite Hold.
  - match goal with
    | |- fst (getSessionBySessionID _ _ ?x) = _ =>
        rewrite (fetch_reachable driver dsn oe db newID x Hdb Hf)
    end.
    cbn [backend rows withRows]. rewrite Hnew.
    cbn [session_id r_contents last_active r_expiration].
    now rewrite (mul_div_Second _ Hr).
Qed.

(** *** Presence *)

(** Against a reachable store, with every pooled record cleared, the fetch
    of a non-empty identifier always returns a record and no error, and the
    record's identifier tells whether the session exists: it is empty
    exactly when no row is keyed by the identifier, and it is the
    identifier asked for otherwise. *)
Theorem fetch_identifier_decides_presence
    (driver dsn : string) (oe : option error) (db : Dao unit)
    (sessID : list byte) (w : World Store) :
  NewDao driver dsn (table (backend w)) = (Some db, oe) ->
  fault (backend w) = None ->
  poolCleared w ->
  B2S sessID <> "" ->
  exists row,
    fst (getSessionBySessionID db sessID w) = (Some row, None) /\
    (sessionID row = "" <->
     forall r, In r (rows (backend w)) -> session_id r <> B2S sessID) /\
    (sessionID row <> "" -> sessionID row = B2S sessID).
Proof.
  intros Hdb Hf Hc Hne.
  rewrite (fetch_reachable driver dsn oe db sessID w Hdb Hf).
  destruct (find (keyed (B2S sessID)) (rows (backend w))) as [r |] eqn:Hfind.
  - apply find_some in Hfind. destruct Hfind as [Hin Hk]. apply keyed_spec in Hk.
    eexists. split; [reflexivity |]. cbn [sessionID]. rewrite Hk. split.
    + split; [congruence |]. intros Hno. exfalso. exact (Hno r Hin Hk).
    + reflexivity.
  - cbv zeta. eexists. split; [reflexivity |]. cbn [sessionID].
    destruct (acquire_cleared w Hc) as [(Hi & _) _]. rewrite Hi. split.
    + split; [| reflexivity]. intros _ r Hin Hk.
      pose proof (find_none _ _ Hfind r Hin) as Hk'.
      apply keyed_spec in Hk. congruence.
    + congruence.
Qed.

(** *** Count *)

(** Against a reachable store, [countSessions] returns the number of rows
    and changes nothing, and the count follows every statement: one more
    after a successful [insert], fewer by the reported number after
    [deleteBySessionID] and [deleteExpiredSessions], the same after
    [updateBySessionID] and [regenerate]. *)
Theorem countSessions_tracks_rows
    (driver dsn : string) (oe : option error) (db : Dao unit)
    (a b : list byte) (lastActiveTime : Z) (expir : Duration) (w : World Store) :
  NewDao driver dsn (table (backend w)) = (Some db, oe) ->
  fault (backend w) = None ->
  let cnt (x : World Store) := fst (countSessions db x) in
  countSessions db w = (Z.of_nat (List.length (rows (backend w))), w) /\
  (snd (fst (insert db a b lastActiveTime expir w)) = None ->
   cnt (snd (insert db a b lastActiveTime expir w)) = cnt w + 1) /\
  cnt (snd (deleteBySessionID db a w))
  = cnt w - fst (fst (deleteBySessionID db a w)) /\
  cnt (snd (deleteExpiredSessions db w))
  = cnt w - fst (fst (deleteExpiredSessions db w)) /\
  cnt (snd (updateBySessionID db a b lastActiveTime expir w)) = cnt w /\
  cnt (snd (regenerate db a b lastActiveTime expir w)) = cnt w.
Proof.
  intros Hdb Hf cnt.
  destruct (NewDao_statements _ _ _ _ _ Hdb)
    as (_ & Hcount & Hupd & Hdel & Hexp & Hins & Hreg).
  destruct w as [pool [tbl rs flt] ck tk].
  cbn [backend table rows fault] in *. subst flt.
  assert (Hcnt : forall rs' pool' ck' tk',
             countSessions db (mkWorld pool' (mkStore tbl rs' None) ck' tk')
             = (Z.of_nat (List.length rs'),
                mkWorld pool' (mkStore tbl rs' None) ck' tk')).
  { intros rs' pool' ck' tk'. unfold countSessions, bind, liftB, ret.
    cbn [QueryRow facade backend dbRowPool clock ticks]. rewrite Hcount.
    pose proof (queryRow_count (mkStore tbl rs' None) eq_refl) as Hq.
    cbn [table rows] in Hq. now rewrite Hq. }
  subst cnt. cbv beta. rewrite !Hcnt. cbn [fst].
  split; [reflexivity |].
  unfold insert, deleteBySessionID, deleteExpiredSessions, updateBySessionID,
    regenerate, bind, timeNowUnix, liftB.
  cbn [Exec facade backend dbRowPool clock ticks].
  rewrite Hupd, Hdel, Hexp, Hins, Hreg.
  pose proof (fun c la ex id =>
                exec_update (mkStore tbl rs None) c la ex id eq_refl) as Hxu.
  pose proof (fun id => exec_delete (mkStore tbl rs None) id eq_refl) as Hxd.
  pose proof (fun now => exec_deleteExpired (mkStore tbl rs None) now eq_refl) as Hxe.
  pose proof (fun id c la ex =>
                exec_insert (mkStore tbl rs None) id c la ex eq_refl) as Hxi.
  pose proof (fun newid la ex oldid =>
                exec_regenerate (mkStore tbl rs None) newid la ex oldid eq_refl) as Hxr.
  cbn [table rows fault withRows] in Hxu, Hxd, Hxe, Hxi, Hxr.
  rewrite Hxu, Hxd, Hxe, Hxi, Hxr.
  unfold withRows. cbn [fst snd table rows fault]. rewrite !Hcnt. cbn [fst].
  split; [| split; [| split; [| split]]].
  - destruct (unique _); cbn [fst snd]; [| discriminate].
    intros _. rewrite Hcnt. cbn [fst]. rewrite length_app. cbn. lia.
  - pose proof (filter_split_length (keyed (B2S a)) rs). lia.
  - pose proof (filter_split_length (expired (ck tk)) rs). lia.
  - now rewrite length_map.
  - destruct (unique _); cbn [fst snd]; rewrite Hcnt; cbn [fst];
      [now rewrite length_map | reflexivity].
Qed.

(** *** Durations under one second *)

(** A session inserted with an expiration shorter than one second is
    stored with expiration zero, so no sweep ever removes it, whatever the
    clock reads. *)
Theorem subsecond_expiration_never_expires
    (driver dsn : string) (oe : option error) (db : Dao unit)
    (sessID conts : list byte) (lastActiveTime : Z) (expir : Duration)
    (w w1 : World Store) (n : Z) :
  NewDao driver dsn (table (backend w)) = (Some db, oe) ->
  - Second < expir < Second ->
  insert db sessID conts lastActiveTime expir w = ((n, None), w1) ->
  In (mkRow (B2S sessID) (B2S conts) lastActiveTime 0) (rows (backend w1)) /\
  In (mkRow (B2S sessID) (B2S conts) lastActiveTime 0)
     (rows (backend (snd (deleteExpiredSessions db w1)))).
Proof.
  intros Hdb Hlt Hrun.
  destruct (insert_success _ _ _ _ _ _ _ _ _ _ _ Hdb Hrun) as (Hf & _ & _ & ->).
  assert (H0 : Int64.div expir Second = 0).
  { unfold Int64.div. replace (Z.quot expir Second) with 0; [reflexivity |].
    symmetry. apply Z.quot_small_iff; unfold Second in *; lia. }
  rewrite H0.
  destruct (NewDao_statements _ _ _ _ _ Hdb) as (_ & _ & _ & _ & Hexp & _).
  cbn [backend rows withRows]. split.
  - apply in_or_app. right. now left.
  - unfold deleteExpiredSessions, bind, timeNowUnix, liftB.
    cbn [Exec facade backend dbRowPool clock ticks]. rewrite Hexp.
    match goal with
    | |- context [exec _ [PInt ?now] ?st] =>
        change (table (backend w)) with (table st);
        rewrite (exec_deleteExpired st now Hf)
    end.
    cbn [snd backend rows withRows]. apply filter_In. split.
    + apply in_or_app. right. now left.
    + unfold expired. cbn. now rewrite andb_false_r.
Qed.

End TableLaws.

(** ** When the fetch fails *)

Section Failures.

Context {St Conn : Type} `{F : Facade St Conn}.

Variable db : Dao Conn.

Lemma error_eqb_ErrNoRows (e : error) : error_eqb e ErrNoRows = true <-> e = ErrNoRows.
Proof. destruct e; cbn; split; congruence. Qed.

(** [getSessionBySessionID] returns an error exactly when the query itself
    fails (with any error, the no-rows sentinel included) or the scan of
    its row fails with an error other than the no-rows sentinel, and the
    error it returns is that very error. *)
Theorem fetch_fails_exactly_when (sessID : list byte) (w : World St) (e : error) :
  let q := fst (QueryRow (sqlGetSessionBySessionID db) [PStr (B2S sessID)] (backend w)) in
  fst (getSessionBySessionID db sessID w) = (None, Some e) <->
  q = inl e \/
  (exists h, q = inr h /\
             snd (scanDBRow h (fst (acquireDBRow w))) = Some e /\ e <> ErrNoRows).
Proof.
  cbv zeta. rewrite fetch_value.
  destruct (fst (QueryRow _ _ (backend w))) as [e' | h].
  - split.
    + intros H. left. congruence.
    + intros [H | (h & H & _)]; congruence.
  - destruct (scanDBRow h (fst (acquireDBRow w))) as [d [e' |]] eqn:Hs; cbn [snd].
    + destruct (error_eqb e' ErrNoRows) eqn:He; cbn [negb].
      * apply error_eqb_ErrNoRows in He. subst e'. split.
        -- discriminate.
        -- intros [H | (h' & H & Hs' & Hne)]; [discriminate |].
           injection H as <-. rewrite Hs in Hs'. cbn in Hs'. congruence.
      * assert (Hne : e' <> ErrNoRows).
        { intros ->. cbn in He. discriminate. }
        split.
        -- intros H. right. exists h. injection H as <-.
           rewrite Hs. cbn. repeat split; assumption.
        -- intros [H | (h' & H & Hs' & _)]; [discriminate |].
           injection H as <-. rewrite Hs in Hs'. cbn in Hs'. congruence.
    + split.
      * discriminate.
      * intros [H | (h' & H & Hs' & _)]; [discriminate |].
        injection H as <-. rewrite Hs in Hs'. cbn in Hs'. discriminate.
Qed.

End Failures.

(** ** Unique identifiers *)

Module TableInvariant.
Import Engine EngineFacts Table.

Lemma lift_exec_unique (q : string) (ps : list Param) (w : World Store) :
  unique (rows (backend w)) = true ->
  unique (rows (backend (snd (liftB (Exec q ps) w)))) = true.
Proof.
  intros Hu. unfold liftB. cbn [Exec facade].
  pose proof (exec_preserves_unique q ps (backend w) Hu) as H.
  destruct (exec q ps (backend w)) as [res st']. exact H.
Qed.

(** If no two rows of the table share an identifier, this is still so
    after every access operation, whatever its arguments and outcome: the
    update never writes an identifier, the deletions only remove rows, and
    an insert or a rotation that would duplicate an identifier is refused
    by the store. *)
Theorem operations_keep_identifiers_unique
    (db : Dao unit) (a b : list byte) (lastActiveTime : Z) (expir : Duration)
    (w : World Store) :
  unique (rows (backend w)) = true ->
  unique (rows (backend (snd (getSessionBySessionID db a w)))) = true /\
  unique (rows (backend (snd (countSessions db w)))) = true /\
  unique (rows (backend (snd (updateBySessionID db a b lastActiveTime expir w)))) = true /\
  unique (rows (backend (snd (deleteBySessionID db a w)))) = true /\
  unique (rows (backend (snd (deleteExpiredSessions db w)))) = true /\
  unique (rows (backend (snd (insert db a b lastActiveTime expir w)))) = true /\
  unique (rows (backend (snd (regenerate db a b lastActiveTime expir w)))) = true.
Proof.
  intros Hu.
  assert (Hq : forall q ps, snd (queryRow q ps (backend w)) = backend w).
  { intros q ps. unfold queryRow. destruct (fault (backend w)); [reflexivity |].
    repeat match goal with
           | |- context [match ?x with _ => _ end] => destruct x
           end; reflexivity. }
  split.
  { rewrite fetch_world. cbn [backend QueryRow facade]. now rewrite Hq. }
  split.
  { unfold countSessions, bind, liftB, ret. cbn [QueryRow facade].
    pose proof (Hq (sqlCountSessions db) []) as Hc.
    destruct (queryRow (sqlCountSessions db) [] (backend w)) as [[e | h] st'];
      cbn [snd] in Hc; subst st'; cbn; [exact Hu |].
    destruct (scanInt h 0) as [t [e |]]; exact Hu. }
  unfold updateBySessionID, deleteBySessionID, insert, regenerate.
  unfold deleteExpiredSessions, bind, timeNowUnix.
  repeat split; apply lift_exec_unique; exact Hu.
Qed.

End TableInvariant.

(** ** The further properties at concrete inputs *)

Module Instances.
Import Engine Scenario.

Lemma store_load_truncates_witness :
  Int64.mul (Int64.div 1900000000 Second) Second = 1000000000.
Proof.
  assert (Hr : Int64.in_range 1900000000)
    by (unfold Int64.in_range, Int64.min_signed, Int64.max_signed; lia).
  destruct (store_load_truncates 1900000000 Hr) as (He & _).
  exact He.
Defined.

Lemma afterRelease_pool : dbRowPool afterRelease = [mkDBRow "" "" 0 30000000000].
Proof. vm_compute. reflexivity. Qed.

Lemma afterRelease_cleared : poolCleared afterRelease.
Proof.
  unfold poolCleared. rewrite afterRelease_pool.
  constructor; [repeat split | constructor].
Qed.

Lemma pool_stays_cleared_witness :
  cleared (fst (acquireDBRow afterRelease)) /\
  poolCleared (snd (getSessionBySessionID db (bytes "s2") afterRelease)).
Proof.
  destruct (pool_stays_cleared db (bytes "s2") (bytes "b") 1100 (60 * Second)
              (mkDBRow "s7" "c" 5 Second) afterRelease afterRelease_cleared)
    as (Hrow & _ & _ & Hfetch & _).
  split; [exact Hrow | exact Hfetch].
Defined.

Lemma fetch_no_rows_is_cleared_witness :
  exists row,
    fst (getSessionBySessionID db (bytes "s2") afterRelease) = (Some row, None) /\
    cleared row.
Proof.
  apply (fetch_no_rows_is_cleared db (bytes "s2") afterRelease afterRelease_cleared).
  vm_compute. reflexivity.
Defined.

Lemma fetch_found_overwrites_record_witness :
  fst (getSessionBySessionID db (bytes "s1")
         (world [mkDBRow "" "" 0 77] (store [s1])))
  = (Some (mkDBRow "s1" "a" 1000 (Int64.mul 30 Second)), None).
Proof.
  apply (fetch_found_overwrites_record db (bytes "s1")
           (world [mkDBRow "" "" 0 77] (store [s1])) "s1" "a" 1000 30).
  vm_compute. reflexivity.
Defined.

Lemma insert_then_fetch_truncates_witness :
  fst (getSessionBySessionID db (bytes "s1")
         (snd (insert db (bytes "s1") (bytes "a") 1000 1900000000 (world [] (store [])))))
  = (Some (mkDBRow "s1" "a" 1000 1000000000), None).
Proof.
  apply (TableLaws.insert_then_fetch_truncates "postgres" "host=localhost" None db
           (bytes "s1") (bytes "a") 1000 1900000000 (world [] (store [])) _ 1).
  - vm_compute. reflexivity.
  - unfold Int64.in_range, Int64.min_signed, Int64.max_signed. lia.
  - vm_compute. reflexivity.
Defined.

Lemma deleteBySessionID_removes_key_witness :
  rows (backend (snd (deleteBySessionID db (bytes "s1") twoRows))) = [keep] /\
  fst (deleteBySessionID db (bytes "s1")
         (snd (deleteBySessionID db (bytes "s1") twoRows))) = (0, None).
Proof.
  destruct (TableLaws.deleteBySessionID_removes_key "postgres" "host=localhost" None db
              (bytes "s1") twoRows (snd (deleteBySessionID db (bytes "s1") twoRows))
              1 None ltac:(vm_compute; reflexivity) ltac:(vm_compute; reflexivity)
              ltac:(vm_compute; reflexivity))
    as (_ & Hrows & _ & _ & Hagain).
  split; [exact Hrows | exact Hagain].
Defined.

Lemma update_then_fetch_witness :
  fst (getSessionBySessionID db (bytes "s1")
         (snd (updateBySessionID db (bytes "s1") (bytes "b") 1100 60500000000 twoRows)))
  = (Some (mkDBRow "s1" "b" 1100 60000000000), None).
Proof.
  apply (TableLaws.update_then_fetch "postgres" "host=localhost" None db
           (bytes "s1") (bytes "b") 1100 60500000000 twoRows s1).
  - vm_compute. reflexivity.
  - vm_compute. reflexivity.
  - unfold Int64.in_range, Int64.min_signed, Int64.max_signed. lia.
  - right. left. reflexivity.
  - vm_compute. reflexivity.
Defined.

Lemma rotation_then_fetch_witness :
  let w1 := snd (regenerate db (bytes "s1") (bytes "s9") 1500 (45 * Second) twoRows) in
  find (keyed "s1") (rows (backend w1)) = None /\
  fst (getSessionBySessionID db (bytes "s9") w1)
  = (Some (mkDBRow "s9" "a" 1500 (45 * Second)), None).
Proof.
  cbv zeta.
  destruct (TableLaws.rotation_then_fetch "postgres" "host=localhost" None db
              (bytes "s1") (bytes "s9") 1500 (45 * Second) twoRows
              (snd (regenerate db (bytes "s1") (bytes "s9") 1500 (45 * Second) twoRows))
              1 s1
              ltac:(vm_compute; reflexivity)
              ltac:(unfold Int64.in_range, Int64.min_signed, Int64.max_signed, Second; lia)
              ltac:(right; left; reflexivity)
              ltac:(vm_compute; reflexivity)
              ltac:(vm_compute; discriminate)
              ltac:(vm_compute; reflexivity))
    as (Hold & _ & Hnew).
  split; [exact Hold | exact Hnew].
Defined.

Lemma fetch_identifier_decides_presence_witness :
  exists row,
    fst (getSessionBySessionID db (bytes "s2") (world [] (store [s1]))) = (Some row, None) /\
    (sessionID row = "" <->
     forall r, In r [s1] -> session_id r <> "s2") /\
    (sessionID row <> "" -> sessionID row = "s2").
Proof.
  apply (TableLaws.fetch_identifier_decides_presence "postgres" "host=localhost" None db
           (bytes "s2") (world [] (store [s1]))).
  - vm_compute. reflexivity.
  - reflexivity.
  - constructor.
  - vm_compute. discriminate.
Defined.

Lemma countSessions_tracks_rows_witness :
  countSessions db twoRows = (2, twoRows) /\
  fst (countSessions db (snd (deleteBySessionID db (bytes "s1") twoRows)))
  = fst (countSessions db twoRows) - fst (fst (deleteBySessionID db (bytes "s1") twoRows)).
Proof.
  destruct (TableLaws.countSessions_tracks_rows "postgres" "host=localhost" None db
              (bytes "s1") (bytes "b") 1100 (60 * Second) twoRows
              ltac:(vm_compute; reflexivity) ltac:(vm_compute; reflexivity))
    as (Hcount & _ & Hdel & _).
  split; [exact Hcount | exact Hdel].
Defined.

Lemma subsecond_expiration_never_expires_witness :
  let w1 := snd (insert db (bytes "s1") (bytes "a") 1000 500000000 (world [] (store []))) in
  In (mkRow "s1" "a" 1000 0) (rows (backend w1)) /\
  In (mkRow "s1" "a" 1000 0) (rows (backend (snd (deleteExpiredSessions db w1)))).
Proof.
  cbv zeta.
  apply (TableLaws.subsecond_expiration_never_expires "postgres" "host=localhost" None db
           (bytes "s1") (bytes "a") 1000 500000000 (world [] (store [])) _ 1).
  - vm_compute. reflexivity.
  - unfold Second. lia.
  - vm_compute. reflexivity.
Defined.

Lemma operations_keep_identifiers_unique_witness :
  unique (rows (backend (snd (insert db (bytes "s1") (bytes "z") 5 0 twoRows)))) = true /\
  unique (rows (backend (snd (regenerate db (bytes "s1") (bytes "keep") 5 0 twoRows)))) = true.
Proof.
  destruct (TableInvariant.operations_keep_identifiers_unique db
              (bytes "s1") (bytes "z") 5 0 twoRows ltac:(vm_compute; reflexivity))
    as (_ & _ & _ & _ & _ & Hins & _).
  destruct (TableInvariant.operations_keep_identifiers_unique db
              (bytes "s1") (bytes "keep") 5 0 twoRows ltac:(vm_compute; reflexivity))
    as (_ & _ & _ & _ & _ & _ & Hreg).
  split; [exact Hins | exact Hreg].
Defined.

End Instances.
